(** * wachat: the binary manager (package [service]) and its host (package [main])

    A shallow embedding of [binary_manager.go], [app.go] and the accessor
    methods of [config.go], together with the properties of the start-up,
    launch and clean-up paths.

    The Go code talks to the operating system ([os], [os/exec],
    [path/filepath]) and to the [backend] package.  Those calls are kept
    abstract: they are the fields of the class [Env], a function of an
    abstract world [W].  Every effect of the program is threaded through a
    state [State] that holds the world, the list of library calls made so
    far and the lines written with [log.Printf].  The module [sim] is one
    such world, small enough to run the program on sample inputs. *)

From Stdlib Require Import ZArith Lia.
From stdpp Require Import base option list strings gmap.

Open Scope string_scope.
Open Scope list_scope.

(** ** Plain data *)

Definition bytes := list Byte.byte.

(** [embed.FS]: a read-only map from slash-separated paths to contents. *)
Definition embed_FS := gmap string bytes.

(** An error of the Go standard library (the [%w] operand of the
    wrapped errors below); only its text matters. *)
Definition os_error := string.

(** [context.Context] is only passed along. *)
Definition Context := nat.

(** The two permission constants of the source. *)
Definition perm_0755 : Z := 493%Z.
Definition exec_bits : Z := 73%Z.

(** [*os.Process]: the handle of a spawned child. *)
Record Process := mkProcess { Pid : Z }.

(** [*exec.Cmd] as built by [exec.CommandContext] in [startBinary]:
    [Stdout] and [Stderr] are always the parent's streams and are left
    out; [Proc] is the field [cmd.Process], nil until [Start] succeeds. *)
Record Cmd := mkCmd {
  Ctx : Context;
  Path : string;
  Dir : string;
  Proc : option Process
}.

(** One constructor per [fmt.Errorf] of [binary_manager.go]. *)
Inductive error :=
| ErrDisabled                                           (* "binary manager is disabled" *)
| ErrNoStartupOrder                                     (* "no binaries in startup_order" *)
| ErrGetCacheDir (cause : os_error)                     (* "failed to get cache directory: %w" *)
| ErrCreateCacheDir (cause : os_error)                  (* "failed to create app cache directory: %w" *)
| ErrResolveBinPath (cause : os_error)                  (* "failed to resolve bin path: %w" *)
| ErrStartedNone                                        (* "failed to start any binaries" *)
| ErrReadEmbedded (name : string) (cause : os_error)    (* "failed to read embedded binary %s: %w" *)
| ErrWriteBinary (name : string) (cause : os_error)     (* "failed to write binary %s: %w" *)
| ErrNotFound (name path : string) (cause : os_error)   (* "binary %s not found at %s: %w" *)
| ErrStart (name : string) (cause : os_error).          (* "failed to start %s: %w" *)

(** The names the specification gives to these errors. *)
Inductive error_kind :=
| ConfigError
| PayloadNotFoundError
| BinaryNotFoundError
| ExtractionError
| LaunchError
| NoBinariesStartedError.

Definition kind_of (e : error) : error_kind :=
  match e with
  | ErrDisabled | ErrNoStartupOrder => ConfigError
  | ErrGetCacheDir _ | ErrCreateCacheDir _ | ErrResolveBinPath _ => ConfigError
  | ErrStartedNone => NoBinariesStartedError
  | ErrReadEmbedded _ _ => PayloadNotFoundError
  | ErrWriteBinary _ _ => ExtractionError
  | ErrNotFound _ _ _ => BinaryNotFoundError
  | ErrStart _ _ => LaunchError
  end.

(** One constructor per [log.Printf]/[log.Println] that runs on the
    caller's thread.  The two lines of the waiting goroutine of
    [startBinary] are written whenever the child exits and are not part
    of the sequential behaviour. *)
Inductive LogEntry :=
| LogBinaryManager (e : error)                  (* app.go: "Binary manager: %v" *)
| LogStartWarning (e : error)                   (* app.go: "Warning: Failed to start binaries: %v" *)
| LogEmbeddedMode                               (* "Binary manager: using embedded mode" *)
| LogLocalMode (binPath : string)               (* "Binary manager: using local mode (path: %s)" *)
| LogLocalDir (binPath : string)                (* "Using local bin directory: %s" *)
| LogFailedToStart (name : string) (e : error)  (* "Failed to start %s: %v" *)
| LogSummary (started total : nat)              (* "Started %d/%d binaries successfully" *)
| LogExtracted (name path : string)             (* "Extracted %s to %s" *)
| LogChmodWarning (name : string) (e : os_error)(* "Warning: failed to chmod %s: %v" *)
| LogLocalBinary (path : string)                (* "Using local binary: %s" *)
| LogStarted (name : string) (pid : Z)          (* "%s started successfully (PID: %d)" *)
| LogTerminating (i : nat) (pid : Z)            (* "Terminating process %d (PID: %d)" *)
| LogKillFailed (i : nat) (e : os_error).       (* "Failed to kill process %d: %v" *)

(** The library calls that read or change the world, in the order the
    program makes them. *)
Inductive Call :=
| CallNewAPI
| CallSetContext (ctx : Context)
| CallUserCacheDir
| CallMkdirAll (path : string) (perm : Z)
| CallAbs (path : string)
| CallReadFile (path : string)
| CallWriteFile (path : string) (data : bytes) (perm : Z)
| CallStat (path : string)
| CallChmod (path : string) (perm : Z)
| CallStart (cmd : Cmd)
| CallKill (p : Process).

(** ** The environment *)

(** [backend.API] is defined outside the three source files. *)
Definition API := nat.

Class Env (W : Type) := {
  (* backend *)
  backend_NewAPI : W -> (API + os_error) * W;
  api_SetContext : API -> Context -> W -> W;
  (* os, path/filepath *)
  os_UserCacheDir : W -> string + os_error;
  os_MkdirAll : string -> Z -> W -> option os_error * W;
  filepath_IsAbs : string -> bool;
  filepath_Abs : string -> W -> string + os_error;
  filepath_Join : list string -> string;
  os_WriteFile : string -> bytes -> Z -> W -> option os_error * W;
  os_Stat : string -> W -> option os_error;
  os_Chmod : string -> Z -> W -> option os_error * W;
  (* os/exec *)
  cmd_Start : Cmd -> W -> (Process + os_error) * W;
  process_Kill : Process -> W -> option os_error * W;
  (* what can be observed of the file system *)
  fs_exists : W -> string -> bool;
  fs_contents : W -> string -> option bytes;
  fs_mode : W -> string -> option Z
}.

(** [fs.ReadFile] on an [embed.FS]: the bytes stored under the path, or
    an error when there is no such file. *)
Definition fs_ReadFile (fsys : embed_FS) (path : string) : bytes + os_error :=
  match fsys !! path with
  | Some data => inl data
  | None => inr ("open " +:+ path +:+ ": file does not exist")
  end.

(** ** State and the state monad *)

Record State (W : Type) := mkState {
  world : W;
  calls : list Call;
  logs : list LogEntry
}.
Arguments mkState {W} _ _ _.
Arguments world {W} _.
Arguments calls {W} _.
Arguments logs {W} _.

Definition M (W A : Type) : Type := State W -> A * State W.

Definition ret {W A} (a : A) : M W A := fun s => (a, s).

Definition bind {W A B} (m : M W A) (k : A -> M W B) : M W B :=
  fun s => let (a, s') := m s in k a s'.

Notation "'let*' x ':=' m 'in' k" := (bind m (fun x => k))
  (at level 10, x name, m at level 100, k at level 200).

(** [log.Printf]. *)
Definition log_Printf {W} (l : LogEntry) : M W unit :=
  fun s => (tt, mkState (world s) (calls s) (logs s ++ [l])).

(** A call that only reads the world. *)
Definition call_read {W A} (c : Call) (f : W -> A) : M W A :=
  fun s => (f (world s), mkState (world s) (calls s ++ [c]) (logs s)).

(** A call that may change the world. *)
Definition call_write {W A} (c : Call) (f : W -> A * W) : M W A :=
  fun s => let (a, w) := f (world s) in (a, mkState w (calls s ++ [c]) (logs s)).

(** ** Package [config]: the settings object and its accessors *)

Module config.

Record AIConfig := mkAIConfig {
  BaseURL : string;
  APIKey : string;
  Model : string
}.

Record BinariesConfig := mkBinariesConfig {
  Enabled : bool;
  UseEmbedded : bool;
  BinPath : string;
  StartupOrder : list string
}.

Record Config := mkConfig {
  AI : option AIConfig;
  Binaries : option BinariesConfig
}.

(** The four methods have a pointer receiver that may be nil. *)
Definition IsEnabled (c : option BinariesConfig) : bool :=
  match c with
  | None => false
  | Some c => Enabled c
  end.

Definition IsUseEmbedded (c : option BinariesConfig) : bool :=
  match c with
  | None => false
  | Some c => UseEmbedded c
  end.

Definition GetBinPath (c : option BinariesConfig) : string :=
  match c with
  | None => ""
  | Some c => BinPath c
  end.

Definition GetStartupOrder (c : option BinariesConfig) : list string :=
  match c with
  | None => []
  | Some c => StartupOrder c
  end.

(** The one error [findProjectRoot] returns. *)
Inductive load_error :=
| ErrGoModNotFound.                                     (* "go.mod not found" *)

Section FindProjectRoot.
Context {W : Type} `{Env W}.

(** [filepath.Dir]: the parent of a directory, the directory itself at
    the root of the file system. *)
Variable filepath_Dir : string -> string.

(** [for i := 0; i < 2; i++]: [turns] is the number of turns left,
    [2 - i].  The result is the pair the Go function returns, the empty
    string with the error or the directory with nil. *)
Fixpoint findProjectRoot_loop (turns : nat) (dir : string)
    : M W (string * option load_error) :=
  match turns with
  | O => ret ("", Some ErrGoModNotFound)
  | S turns =>
      let* r := call_read (CallStat (filepath_Join [dir; "go.mod"]))
                          (os_Stat (filepath_Join [dir; "go.mod"])) in
      match r with
      | None => ret (dir, None)
      | Some _ =>
          let parentDir := filepath_Dir dir in
          if String.eqb parentDir dir then ret ("", Some ErrGoModNotFound)
          else findProjectRoot_loop turns parentDir
      end
  end.

Definition findProjectRoot (startDir : string) : M W (string * option load_error) :=
  findProjectRoot_loop 2 startDir.

End FindProjectRoot.

End config.

(** ** Package [service]: the binary manager *)

Module service.

(** The interface [BinariesConfig]. *)
Class BinariesConfig (T : Type) := {
  IsEnabled : T -> bool;
  IsUseEmbedded : T -> bool;
  GetBinPath : T -> string;
  GetStartupOrder : T -> list string
}.

Record BinaryManager := mkBinaryManager {
  useEmbedded : bool;
  binaries : embed_FS;
  binPath : string;
  processes : list Cmd;
  execOrder : list string;
  cacheDir : string
}.

(** [bm.processes = append(bm.processes, cmd)]. *)
Definition append_process (bm : BinaryManager) (cmd : Cmd) : BinaryManager :=
  mkBinaryManager (useEmbedded bm) (binaries bm) (binPath bm)
                  (processes bm ++ [cmd]) (execOrder bm) (cacheDir bm).

Section WithEnv.
Context {W : Type} `{Env W}.

(** The Go function returns a manager pointer and an error, a pair
    of which one component is nil. *)
Definition NewBinaryManager (useEmbedded : bool) (binaries : embed_FS)
    (binPath : string) (execOrder : list string)
    : M W (option BinaryManager * option error) :=
  if useEmbedded then
    let* r := call_read CallUserCacheDir os_UserCacheDir in
    match r with
    | inr err => ret (None, Some (ErrGetCacheDir err))
    | inl userCacheDir =>
        let cacheDir := filepath_Join [userCacheDir; "wachat"; "bin"] in
        let* r := call_write (CallMkdirAll cacheDir perm_0755)
                             (os_MkdirAll cacheDir perm_0755) in
        match r with
        | Some err => ret (None, Some (ErrCreateCacheDir err))
        | None =>
            ret (Some (mkBinaryManager useEmbedded binaries binPath []
                                       execOrder cacheDir), None)
        end
    end
  else
    let* r :=
      if negb (filepath_IsAbs binPath) then
        call_read (CallAbs binPath) (filepath_Abs binPath)
      else ret (inl binPath) in
    match r with
    | inr err => ret (None, Some (ErrResolveBinPath err))
    | inl binPath =>
        let cacheDir := binPath in
        let* _ := log_Printf (LogLocalDir binPath) in
        ret (Some (mkBinaryManager useEmbedded binaries binPath []
                                   execOrder cacheDir), None)
    end.

(** [cfg] is an interface value: [None] is the nil interface. *)
Definition NewBinaryManagerFromConfig {T : Type} `{BinariesConfig T}
    (cfg : option T) (binaries : embed_FS)
    : M W (option BinaryManager * option error) :=
  match cfg with
  | None => ret (None, Some ErrDisabled)
  | Some cfg =>
      if negb (IsEnabled cfg) then ret (None, Some ErrDisabled)
      else
        let startupOrder := GetStartupOrder cfg in
        if (length startupOrder =? 0)%nat then ret (None, Some ErrNoStartupOrder)
        else
          let binPath := GetBinPath cfg in
          let binPath := if String.eqb binPath "" then "./bin" else binPath in
          let useEmbedded := IsUseEmbedded cfg in
          let* r := NewBinaryManager useEmbedded binaries binPath startupOrder in
          match r with
          | (_, Some err) => ret (None, Some err)
          | (bm, None) =>
              let* _ := if useEmbedded then log_Printf LogEmbeddedMode
                        else log_Printf (LogLocalMode binPath) in
              ret (bm, None)
          end
  end.

(** The tail of [startBinary] that both branches reach ("Run binary
    in background"): build the command, start it, keep the handle.
    The goroutine that waits for the child only writes a log line
    when the child exits. *)
Definition startBinary_run (ctx : Context) (bm : BinaryManager)
    (name executablePath : string) : M W (option error * BinaryManager) :=
  let cmd := mkCmd ctx executablePath (cacheDir bm) None in
  let* r := call_write (CallStart cmd) (cmd_Start cmd) in
  match r with
  | inr err => ret (Some (ErrStart name err), bm)
  | inl p =>
      let cmd := mkCmd ctx executablePath (cacheDir bm) (Some p) in
      let* _ := log_Printf (LogStarted name (Pid p)) in
      ret (None, append_process bm cmd)
  end.

Definition startBinary (ctx : Context) (bm : BinaryManager) (name : string)
    : M W (option error * BinaryManager) :=
  if useEmbedded bm then
    let binaryPath := filepath_Join ["bin"; name] in
    let* r := call_read (CallReadFile binaryPath)
                        (fun _ => fs_ReadFile (binaries bm) binaryPath) in
    match r with
    | inr err => ret (Some (ErrReadEmbedded name err), bm)
    | inl data =>
        let executablePath := filepath_Join [cacheDir bm; name] in
        let* r := call_write (CallWriteFile executablePath data perm_0755)
                             (os_WriteFile executablePath data perm_0755) in
        match r with
        | Some err => ret (Some (ErrWriteBinary name err), bm)
        | None =>
            let* _ := log_Printf (LogExtracted name executablePath) in
            startBinary_run ctx bm name executablePath
        end
    end
  else
    let executablePath := filepath_Join [cacheDir bm; name] in
    let* r := call_read (CallStat executablePath) (os_Stat executablePath) in
    match r with
    | Some err => ret (Some (ErrNotFound name executablePath err), bm)
    | None =>
        let* r := call_write (CallChmod executablePath perm_0755)
                             (os_Chmod executablePath perm_0755) in
        let* _ := match r with
                  | Some err => log_Printf (LogChmodWarning name err)
                  | None => ret tt
                  end in
        let* _ := log_Printf (LogLocalBinary executablePath) in
        startBinary_run ctx bm name executablePath
    end.

(** The body of the [for] loop of [StartAll]: one attempt and, when
    it fails, its log line. *)
Definition StartAll_body (ctx : Context) (bm : BinaryManager)
    (binaryName : string) : M W (option error * BinaryManager) :=
  let* r := startBinary ctx bm binaryName in
  match r with
  | (Some err, bm) =>
      let* _ := log_Printf (LogFailedToStart binaryName err) in
      ret (Some err, bm)
  | (None, bm) => ret (None, bm)
  end.

(** [for _, binaryName := range bm.execOrder]; [successCount] is a Go
    [int] that never exceeds the length of the slice. *)
Fixpoint StartAll_loop (ctx : Context) (names : list string)
    (bm : BinaryManager) (successCount : nat) : M W (nat * BinaryManager) :=
  match names with
  | [] => ret (successCount, bm)
  | binaryName :: rest =>
      let* r := StartAll_body ctx bm binaryName in
      match r with
      | (Some _, bm) => StartAll_loop ctx rest bm successCount
      | (None, bm) => StartAll_loop ctx rest bm (S successCount)
      end
  end.

Definition StartAll (ctx : Context) (bm : BinaryManager)
    : M W (option error * BinaryManager) :=
  let* r := StartAll_loop ctx (execOrder bm) bm 0 in
  let (successCount, bm) := r in
  if (successCount =? 0)%nat then ret (Some ErrStartedNone, bm)
  else
    let* _ := log_Printf (LogSummary successCount (length (execOrder bm))) in
    ret (None, bm).

Definition GetProcessCount (bm : BinaryManager) : nat :=
  length (processes bm).

(** [for i, cmd := range bm.processes]. *)
Fixpoint Cleanup_loop (i : nat) (cmds : list Cmd) : M W unit :=
  match cmds with
  | [] => ret tt
  | cmd :: rest =>
      let* _ :=
        match Proc cmd with
        | Some p =>
            let* _ := log_Printf (LogTerminating i (Pid p)) in
            let* r := call_write (CallKill p) (process_Kill p) in
            match r with
            | Some err => log_Printf (LogKillFailed i err)
            | None => ret tt
            end
        | None => ret tt
        end in
      Cleanup_loop (S i) rest
  end.

(** [Cleanup] has a pointer receiver and no result; the manager it
    leaves behind is returned so that its effect on it can be stated. *)
Definition Cleanup (bm : BinaryManager) : M W BinaryManager :=
  let* _ := Cleanup_loop 0 (processes bm) in
  ret bm.

End WithEnv.

End service.

(** [*config.BinariesConfig] implements the interface. *)
#[global] Instance config_BinariesConfig
    : service.BinariesConfig (option config.BinariesConfig) := {
  service.IsEnabled := config.IsEnabled;
  service.IsUseEmbedded := config.IsUseEmbedded;
  service.GetBinPath := config.GetBinPath;
  service.GetStartupOrder := config.GetStartupOrder
}.

(** ** Package [main]: the hosting application *)

Module main.

Record App := mkApp {
  ctx : option Context;
  chatAPI : API;
  binaryManager : option service.BinaryManager
}.

Section WithEnv.
Context {W : Type} `{Env W}.

(** [binaries] is the package variable filled by [go:embed bin/*].
    The result is [inl msg] when the function panics.  [cfg] is the
    pointer [main] got from [config.Load] without an error, so it is
    not nil; [cfg.Binaries] is a [*config.BinariesConfig] turned into
    an interface value, which is never the nil interface. *)
Definition NewApp (binaries : embed_FS) (cfg : config.Config)
    : M W (string + App) :=
  let* r := call_write CallNewAPI backend_NewAPI in
  match r with
  | inr err => ret (inl ("Failed to initialize API: " +:+ err))
  | inl api =>
      let* r := service.NewBinaryManagerFromConfig
                  (Some (config.Binaries cfg)) binaries in
      let (binaryManager, err) := r in
      let* _ := match err with
                | Some err => log_Printf (LogBinaryManager err)
                | None => ret tt
                end in
      ret (inr (mkApp None api binaryManager))
  end.

Definition startup (a : App) (c : Context) : M W App :=
  let* _ := call_write (CallSetContext c)
              (fun w => (tt, api_SetContext (chatAPI a) c w)) in
  match binaryManager a with
  | Some bm =>
      let* r := service.StartAll c bm in
      let (err, bm) := r in
      let* _ := match err with
                | Some err => log_Printf (LogStartWarning err)
                | None => ret tt
                end in
      ret (mkApp (Some c) (chatAPI a) (Some bm))
  | None => ret (mkApp (Some c) (chatAPI a) None)
  end.

Definition shutdown (a : App) (c : Context) : M W App :=
  match binaryManager a with
  | Some bm =>
      let* bm := service.Cleanup bm in
      ret (mkApp (ctx a) (chatAPI a) (Some bm))
  | None => ret a
  end.

End WithEnv.

End main.

(** ** Vocabulary of the properties *)

Section Vocabulary.
Context {W : Type} `{Env W}.
Import service.

(** The per-name results of the loop of [StartAll], in order. *)
Fixpoint attempts (ctx : Context) (names : list string) (bm : BinaryManager)
    (s : State W) : list (string * option error) :=
  match names with
  | [] => []
  | name :: rest =>
      let '((err, bm'), s') := StartAll_body ctx bm name s in
      (name, err) :: attempts ctx rest bm' s'
  end.

Definition succeeded (a : string * option error) : bool :=
  match a.2 with
  | None => true
  | Some _ => false
  end.

(** How many attempts succeeded. *)
Definition successes (l : list (string * option error)) : nat :=
  length (List.filter succeeded l).

(** The first library call of the attempt for [name]: the read of the
    payload (embedded) or the existence check (local). *)
Definition resolve_call (bm : BinaryManager) (name : string) : Call :=
  if useEmbedded bm then CallReadFile (filepath_Join ["bin"; name])
  else CallStat (filepath_Join [cacheDir bm; name]).

(** The path [startBinary] resolves for a name. *)
Definition executable_path (bm : BinaryManager) (name : string) : string :=
  filepath_Join [cacheDir bm; name].

(** The calls that may follow the first one within the attempt for
    [name]: the write or the chmod of its file and the start of its
    command. *)
Definition follow_up_call (bm : BinaryManager) (name : string) (c : Call) : Prop :=
  match c with
  | CallWriteFile path _ _ | CallChmod path _ => path = executable_path bm name
  | CallStart cmd => Path cmd = executable_path bm name
  | _ => False
  end.

(** The calls of one attempt: the first call, then follow-up calls. *)
Definition attempt_segment (bm : BinaryManager) (name : string)
    (seg : list Call) : Prop :=
  exists tail, seg = resolve_call bm name :: tail /\
               Forall (follow_up_call bm name) tail.

(** The log line that closes an attempt, read back as its result. *)
Definition outcome_of_log (l : LogEntry) : option (string * option error) :=
  match l with
  | LogStarted name _ => Some (name, None)
  | LogFailedToStart name e => Some (name, Some e)
  | _ => None
  end.

(** The signals [Cleanup] sends: one per handle whose process is not nil. *)
Definition kill_calls (bm : BinaryManager) : list Call :=
  CallKill <$> omap Proc (processes bm).

(** [Cleanup] called [n] times in a row. *)
Fixpoint Cleanup_times (n : nat) (bm : BinaryManager) : M W BinaryManager :=
  match n with
  | O => ret bm
  | S n => let* bm := Cleanup bm in Cleanup_times n bm
  end.

Definition is_executable (w : W) (path : string) : bool :=
  match fs_mode w path with
  | Some m => negb (Z.land m exec_bits =? 0)%Z
  | None => false
  end.

End Vocabulary.

(** What the properties below assume of the operating system: [Stat]
    fails on a path that does not exist; a [WriteFile] that succeeds
    leaves a file with the bytes written; a [Start] that succeeds ran a
    file that was executable and did not itself touch the file system. *)
Class EnvLaws (W : Type) `{Env W} : Prop := {
  stat_absent : forall (w : W) (path : string),
    fs_exists w path = false -> is_Some (os_Stat path w);
  write_file_ok : forall (w w' : W) (path : string) (data : bytes) (perm : Z),
    os_WriteFile path data perm w = (None, w') ->
    fs_exists w' path = true /\ fs_contents w' path = Some data;
  start_ok : forall (w w' : W) (cmd : Cmd) (p : Process),
    cmd_Start cmd w = (inl p, w') ->
    is_executable w (Path cmd) = true /\
    forall path, fs_exists w' path = fs_exists w path /\
                 fs_contents w' path = fs_contents w path /\
                 fs_mode w' path = fs_mode w path
}.

(** ** A small operating system, to run the program on concrete inputs *)

Module sim.

Record File := mkFile {
  content : bytes;
  mode : Z;
  owned : bool        (* chmod is refused on a file of another user *)
}.

Record Child := mkChild {
  child_pid : Z;
  child_path : string;
  alive : bool
}.

Record OS := mkOS {
  files : gmap string File;
  dirs : gset string;
  children : list Child;
  next_pid : Z;
  max_children : nat;           (* the spawn fails beyond this many *)
  user_cache : option string;   (* None: no cache location is defined *)
  cwd : option string;
  umask : Z;
  api_ok : bool
}.

Definition with_files (w : OS) (fs : gmap string File) : OS :=
  mkOS fs (dirs w) (children w) (next_pid w) (max_children w)
       (user_cache w) (cwd w) (umask w) (api_ok w).

Definition with_children (w : OS) (cs : list Child) (pid : Z) : OS :=
  mkOS (files w) (dirs w) cs pid (max_children w)
       (user_cache w) (cwd w) (umask w) (api_ok w).

Definition NewAPI (w : OS) : (API + os_error) * OS :=
  if api_ok w then (inl 0%nat, w) else (inr "database unavailable", w).

Definition UserCacheDir (w : OS) : string + os_error :=
  match user_cache w with
  | Some d => inl d
  | None => inr "neither $XDG_CACHE_HOME nor $HOME are defined"
  end.

Definition MkdirAll (path : string) (perm : Z) (w : OS) : option os_error * OS :=
  match files w !! path with
  | Some _ => (Some "not a directory", w)
  | None =>
      (None, mkOS (files w) ({[path]} ∪ dirs w) (children w) (next_pid w)
                  (max_children w) (user_cache w) (cwd w) (umask w) (api_ok w))
  end.

Definition IsAbs (path : string) : bool :=
  String.prefix "/" path.

(** Elements joined with a slash, empty ones skipped; the result is
    not cleaned of [.] and [..]. *)
Fixpoint Join (elems : list string) : string :=
  match elems with
  | [] => ""
  | e :: rest =>
      if String.eqb e "" then Join rest
      else match Join rest with
           | "" => e
           | r => e +:+ "/" +:+ r
           end
  end.

Definition Abs (path : string) (w : OS) : string + os_error :=
  if IsAbs path then inl path
  else match cwd w with
       | Some d => inl (Join [d; path])
       | None => inr "getwd: no such file or directory"
       end.

(** An existing file is truncated and keeps its mode; a new one gets
    [perm] less the umask. *)
Definition WriteFile (path : string) (data : bytes) (perm : Z) (w : OS)
    : option os_error * OS :=
  if bool_decide (path ∈ dirs w) then (Some "is a directory", w)
  else match files w !! path with
       | Some f =>
           if (Z.land (mode f) 128 =? 0)%Z then (Some "permission denied", w)
           else (None, with_files w (<[path := mkFile data (mode f) (owned f)]> (files w)))
       | None =>
           (None, with_files w
                    (<[path := mkFile data (Z.land perm (Z.lnot (umask w))) true]> (files w)))
       end.

Definition exists_at (w : OS) (path : string) : bool :=
  bool_decide (is_Some (files w !! path)) || bool_decide (path ∈ dirs w).

Definition Stat (path : string) (w : OS) : option os_error :=
  if exists_at w path then None else Some "no such file or directory".

Definition Chmod (path : string) (perm : Z) (w : OS) : option os_error * OS :=
  match files w !! path with
  | Some f =>
      if owned f then (None, with_files w (<[path := mkFile (content f) perm true]> (files w)))
      else (Some "operation not permitted", w)
  | None =>
      if bool_decide (path ∈ dirs w) then (None, w)
      else (Some "no such file or directory", w)
  end.

Definition Start (cmd : Cmd) (w : OS) : (Process + os_error) * OS :=
  match files w !! Path cmd with
  | None => (inr "no such file or directory", w)
  | Some f =>
      if (Z.land (mode f) exec_bits =? 0)%Z then (inr "permission denied", w)
      else if (max_children w <=? length (children w))%nat
           then (inr "resource temporarily unavailable", w)
           else (inl (mkProcess (next_pid w)),
                 with_children w (children w ++ [mkChild (next_pid w) (Path cmd) true])
                               (next_pid w + 1)%Z)
  end.

Fixpoint kill_child (pid : Z) (cs : list Child) : option (list Child) :=
  match cs with
  | [] => None
  | c :: rest =>
      if (child_pid c =? pid)%Z && alive c
      then Some (mkChild (child_pid c) (child_path c) false :: rest)
      else cons c <$> kill_child pid rest
  end.

Definition Kill (p : Process) (w : OS) : option os_error * OS :=
  match kill_child (Pid p) (children w) with
  | Some cs => (None, with_children w cs (next_pid w))
  | None => (Some "os: process already finished", w)
  end.

#[global] Instance sim_Env : Env OS := {
  backend_NewAPI := NewAPI;
  api_SetContext := fun _ _ w => w;
  os_UserCacheDir := UserCacheDir;
  os_MkdirAll := MkdirAll;
  filepath_IsAbs := IsAbs;
  filepath_Abs := Abs;
  filepath_Join := Join;
  os_WriteFile := WriteFile;
  os_Stat := Stat;
  os_Chmod := Chmod;
  cmd_Start := Start;
  process_Kill := Kill;
  fs_exists := exists_at;
  fs_contents := fun w path => content <$> files w !! path;
  fs_mode := fun w path => mode <$> files w !! path
}.

(** A machine with nothing on it. *)
Definition empty_os : OS :=
  mkOS ∅ ∅ [] 100%Z 16 (Some "/home/u/.cache") (Some "/opt/wachat") 18%Z true.

Definition boot (w : OS) : State OS := mkState w [] [].

Definition exe (data : bytes) : File := mkFile data 493%Z true.

End sim.

(** ** Sample inputs *)

Module scenario.
Import sim service.

(** The payload holds a binary for "a" and none for "b". *)
Definition payload : embed_FS := {[ "bin/a" := [Byte.x7f; Byte.x45] ]}.

Definition cache_dir : string := "/home/u/.cache/wachat/bin".
Definition local_dir : string := "/opt/wachat/bin".

(** The manager the constructor builds in embedded mode on the empty
    machine, and the state it leaves. *)
Definition embedded_bm : BinaryManager :=
  mkBinaryManager true payload "./bin" [] ["a"; "b"] cache_dir.

Definition embedded_state : State OS :=
  (NewBinaryManager true payload "./bin" ["a"; "b"] (boot empty_os)).2.

(** A machine with two local binaries: "a", and "c" which belongs to
    another user, so that its mode cannot be changed. *)
Definition local_os : OS :=
  with_files empty_os
    (<[ "/opt/wachat/bin/a" := exe [Byte.x7f] ]>
       (<[ "/opt/wachat/bin/c" := mkFile [Byte.x7f] 493%Z false ]> ∅)).

Definition local_bm (order : list string) : BinaryManager :=
  mkBinaryManager false ∅ local_dir [] order local_dir.

Definition local_state : State OS :=
  mkState local_os [] [LogLocalDir local_dir].

Definition disabled : config.Config :=
  config.mkConfig None (Some (config.mkBinariesConfig false true "" ["a"])).

Definition no_order : config.Config :=
  config.mkConfig None (Some (config.mkBinariesConfig true true "" [])).

End scenario.

(** ** More vocabulary: what the traces say *)

Section Traces.
Context {W : Type} `{Env W}.
Import service.

(** The pid of a "started successfully" line. *)
Definition started_pid (l : LogEntry) : option Z :=
  match l with
  | LogStarted _ pid => Some pid
  | _ => None
  end.

Definition is_start (c : Call) : bool :=
  match c with
  | CallStart _ => true
  | _ => false
  end.

(** The calls an attempt can make in local mode, and in embedded mode. *)
Definition local_call (c : Call) : bool :=
  match c with
  | CallStat _ | CallChmod _ _ | CallStart _ => true
  | _ => false
  end.

Definition embedded_call (c : Call) : bool :=
  match c with
  | CallReadFile _ | CallWriteFile _ _ _ | CallStart _ => true
  | _ => false
  end.

Definition mode_call (bm : BinaryManager) (c : Call) : bool :=
  if useEmbedded bm then embedded_call c else local_call c.

(** The calls the constructor can make. *)
Definition construction_call (c : Call) : bool :=
  match c with
  | CallUserCacheDir | CallMkdirAll _ _ | CallAbs _ => true
  | _ => false
  end.

(** The index and pid of a "Terminating process" line. *)
Definition terminating (l : LogEntry) : option (nat * Z) :=
  match l with
  | LogTerminating i pid => Some (i, pid)
  | _ => None
  end.

(** The two lines [Cleanup] writes. *)
Definition cleanup_line (l : LogEntry) : bool :=
  match l with
  | LogTerminating _ _ | LogKillFailed _ _ => true
  | _ => false
  end.

(** The handles that have a process, with their position in the list
    counted from [i]. *)
Fixpoint signalled (i : nat) (cmds : list Cmd) : list (nat * Z) :=
  match cmds with
  | [] => []
  | cmd :: rest =>
      match Proc cmd with
      | Some p => (i, Pid p) :: signalled (S i) rest
      | None => signalled (S i) rest
      end
  end.

(** The kinds of error an attempt can end with, by mode. *)
Definition attempt_error_kind (bm : BinaryManager) (k : error_kind) : bool :=
  match k with
  | LaunchError => true
  | PayloadNotFoundError | ExtractionError => useEmbedded bm
  | BinaryNotFoundError => negb (useEmbedded bm)
  | _ => false
  end.

End Traces.

(** ** More sample inputs *)

Module samples.
Import sim.

(** The part of a path before its last slash, when it has one. *)
Fixpoint before_last_slash (path : string) : option string :=
  match path with
  | EmptyString => None
  | String c rest =>
      match before_last_slash rest with
      | Some d => Some (String c d)
      | None => if String.eqb (String c EmptyString) "/" then Some "" else None
      end
  end.

(** [filepath.Dir] on clean paths. *)
Definition Dir (path : string) : string :=
  match before_last_slash path with
  | Some "" => "/"
  | Some d => d
  | None => "."
  end.

(** A checkout at /src/wachat with its go.mod, and a build tree in it. *)
Definition project_os : OS :=
  mkOS (<[ "/src/wachat/go.mod" := mkFile [] 420%Z true ]> ∅)
       ({[ "/src"; "/src/wachat"; "/src/wachat/build"; "/src/wachat/build/bin" ]})
       [] 100%Z 16 (Some "/home/u/.cache") (Some "/src/wachat") 18%Z true.

(** An application whose manager is the local one of [scenario]. *)
Definition local_app : main.App :=
  main.mkApp None 0%nat (Some (scenario.local_bm ["a"; "b"; "c"])).

End samples.

(** * Properties *)

Import service.

(** ** One attempt *)

Section Attempt.
Context {W : Type} `{Env W}.

Lemma resolve_call_append bm cmd name :
  resolve_call (append_process bm cmd) name = resolve_call bm name.
Proof. reflexivity. Qed.

Lemma executable_path_append bm cmd name :
  executable_path (append_process bm cmd) name = executable_path bm name.
Proof. reflexivity. Qed.

(** What one turn of the loop does to the manager, the call trace and
    the log. *)
Lemma StartAll_body_post ctx bm name s err bm' s' :
  StartAll_body ctx bm name s = ((err, bm'), s') ->
  exists cs ls,
    calls s' = calls s ++ cs /\
    logs s' = logs s ++ ls /\
    attempt_segment bm name cs /\
    omap outcome_of_log ls = [(name, err)] /\
    match err with
    | None => exists p,
        bm' = append_process bm
                (mkCmd ctx (executable_path bm name) (cacheDir bm) (Some p))
    | Some _ => bm' = bm
    end.
Proof.
  intros E.
  unfold StartAll_body, startBinary, startBinary_run, bind, call_read,
    call_write, log_Printf, ret in E.
  unfold attempt_segment, resolve_call, executable_path.
  repeat (case_match; simplify_eq/=).
  all: do 2 eexists; rewrite <- ?app_assoc.
  all: split_and!; [reflexivity | reflexivity | | reflexivity | eauto].
  all: eexists; split; [reflexivity | by repeat constructor].
Qed.

(** An attempt leaves either the manager it got or that manager with
    one more handle. *)
Lemma StartAll_body_manager ctx bm name s :
  let r := StartAll_body ctx bm name s in
  match r.1.1 with
  | None => exists p,
      r.1.2 = append_process bm
                (mkCmd ctx (executable_path bm name) (cacheDir bm) (Some p))
  | Some _ => r.1.2 = bm
  end.
Proof.
  destruct (StartAll_body ctx bm name s) as [[err bm'] s'] eqn:E.
  apply StartAll_body_post in E as (_ & _ & _ & _ & _ & _ & E). exact E.
Qed.

End Attempt.

(** ** The loop of [StartAll] *)

Section Loop.
Context {W : Type} `{Env W}.

Lemma attempts_names ctx names : forall bm (s : State W),
  (attempts ctx names bm s).*1 = names.
Proof.
  induction names as [|name rest IH]; intros bm s; simpl; [reflexivity|].
  destruct (StartAll_body ctx bm name s) as [[err bm'] s'].
  simpl. by rewrite IH.
Qed.

Lemma successes_le l : (successes l <= length l)%nat.
Proof. unfold successes. apply List.filter_length_le. Qed.

(** The counter of the loop counts the attempts that returned nil. *)
Lemma StartAll_loop_count ctx names : forall bm k (s : State W),
  (StartAll_loop ctx names bm k s).1.1
  = (k + successes (attempts ctx names bm s))%nat.
Proof.
  induction names as [|name rest IH]; intros bm k s; simpl.
  - unfold ret, successes. simpl. lia.
  - unfold bind.
    destruct (StartAll_body ctx bm name s) as [[[e|] bm'] s'];
      rewrite IH; unfold successes; simpl; lia.
Qed.

(** The handles of the loop: one more per attempt that returned nil,
    each for the path of its name, each with a process. *)
Lemma StartAll_loop_handles ctx names : forall bm k (s : State W),
  let att := attempts ctx names bm s in
  exists hs,
    processes (StartAll_loop ctx names bm k s).1.2 = processes bm ++ hs /\
    Path <$> hs = executable_path bm <$> (List.filter succeeded att).*1 /\
    Forall (fun cmd => is_Some (Proc cmd)) hs.
Proof.
  induction names as [|name rest IH]; intros bm k s; simpl.
  - exists []. by rewrite app_nil_r.
  - unfold bind.
    pose proof (StartAll_body_manager ctx bm name s) as Hm.
    destruct (StartAll_body ctx bm name s) as [[[e|] bm'] s']; simpl in Hm.
    + subst bm'. destruct (IH bm k s') as (hs & ? & ? & ?). by exists hs.
    + destruct Hm as [p ->].
      destruct (IH (append_process bm
                      (mkCmd ctx (executable_path bm name) (cacheDir bm) (Some p)))
                   (S k) s') as (hs & Hp & Hpath & Hall).
      eexists (_ :: hs). split_and!.
      * rewrite Hp. simpl. by rewrite <- app_assoc.
      * simpl. f_equal. exact Hpath.
      * constructor; [by eexists | done].
Qed.

(** The settings of the manager do not change during the loop. *)
Lemma StartAll_loop_settings ctx names : forall bm k (s : State W),
  let bm' := (StartAll_loop ctx names bm k s).1.2 in
  useEmbedded bm' = useEmbedded bm /\ binaries bm' = binaries bm /\
  binPath bm' = binPath bm /\ execOrder bm' = execOrder bm /\
  cacheDir bm' = cacheDir bm.
Proof.
  induction names as [|name rest IH]; intros bm k s; simpl; [done|].
  unfold bind.
  pose proof (StartAll_body_manager ctx bm name s) as Hm.
  destruct (StartAll_body ctx bm name s) as [[[e|] bm'] s']; simpl in Hm.
  - subst bm'. apply IH.
  - destruct Hm as [p ->]. exact (IH (append_process bm _) (S k) s').
Qed.

(** The calls of the loop are the calls of its attempts, one attempt
    after the other, and its log lines end each attempt in turn. *)
Lemma StartAll_loop_trace ctx names : forall bm k (s : State W),
  let s' := (StartAll_loop ctx names bm k s).2 in
  exists segs ls,
    calls s' = calls s ++ concat segs /\
    Forall2 (attempt_segment bm) names segs /\
    logs s' = logs s ++ ls /\
    omap outcome_of_log ls = attempts ctx names bm s.
Proof.
  induction names as [|name rest IH]; intros bm k s; simpl.
  - exists [], []. simpl. rewrite !app_nil_r. by split_and!.
  - unfold bind.
    destruct (StartAll_body ctx bm name s) as [[err bm'] s'] eqn:E.
    apply StartAll_body_post in E as (cs1 & ls1 & Hc & Hl & Hseg & Ho & Hm).
    destruct err as [e|]; simpl.
    + subst bm'.
      destruct (IH bm k s') as (segs & ls2 & Hc2 & Hsegs & Hl2 & Ho2).
      exists (cs1 :: segs), (ls1 ++ ls2). split_and!.
      * by rewrite Hc2, Hc, <- app_assoc.
      * by constructor.
      * by rewrite Hl2, Hl, <- app_assoc.
      * by rewrite omap_app, Ho, Ho2.
    + destruct Hm as [p ->].
      destruct (IH (append_process bm
                      (mkCmd ctx (executable_path bm name) (cacheDir bm) (Some p)))
                   (S k) s') as (segs & ls2 & Hc2 & Hsegs & Hl2 & Ho2).
      exists (cs1 :: segs), (ls1 ++ ls2). split_and!.
      * by rewrite Hc2, Hc, <- app_assoc.
      * by constructor.
      * by rewrite Hl2, Hl, <- app_assoc.
      * by rewrite omap_app, Ho, Ho2.
Qed.

End Loop.

(** ** Construction *)

Section Construction.
Context {W : Type} `{Env W}.

(** A manager that comes out of the constructor has the settings it
    was given, no handle yet, and comes without an error. *)
Lemma NewBinaryManager_fresh ue bins bp eo (s0 s1 : State W) bm err :
  NewBinaryManager ue bins bp eo s0 = ((Some bm, err), s1) ->
  err = None /\ processes bm = [] /\ execOrder bm = eo /\
  useEmbedded bm = ue /\ binaries bm = bins.
Proof.
  unfold NewBinaryManager, bind, call_read, call_write, log_Printf, ret.
  intros E. repeat (case_match; simplify_eq/=); done.
Qed.

(** Either a manager or an error, never both and never neither. *)
Lemma NewBinaryManager_result ue bins bp eo (s0 : State W) :
  let r := NewBinaryManager ue bins bp eo s0 in
  (is_Some r.1.1 /\ r.1.2 = None) \/ (r.1.1 = None /\ is_Some r.1.2).
Proof.
  unfold NewBinaryManager, bind, call_read, call_write, log_Printf, ret.
  repeat (case_match; simplify_eq/=); eauto.
Qed.

End Construction.

(** ** [StartAll] *)

Section StartAll.
Context {W : Type} `{Env W}.

(** [StartAll] returns what its loop leaves, and an error exactly when
    the counter is zero. *)
Lemma StartAll_unfold ctx bm (s : State W) :
  let l := StartAll_loop ctx (execOrder bm) bm 0 s in
  let r := StartAll ctx bm s in
  r.1.2 = l.1.2 /\
  calls r.2 = calls l.2 /\
  world r.2 = world l.2 /\
  (l.1.1 = 0%nat -> r.1.1 = Some ErrStartedNone /\ logs r.2 = logs l.2) /\
  (l.1.1 <> 0%nat -> r.1.1 = None /\
     logs r.2 = logs l.2 ++ [LogSummary l.1.1 (length (execOrder l.1.2))]).
Proof.
  unfold StartAll, bind, log_Printf, ret.
  destruct (StartAll_loop ctx (execOrder bm) bm 0 s) as [[[|n] bm'] s']; simpl.
  all: split_and!; try done.
Qed.

(** The handles after [StartAll]: those it found, then one per
    successful attempt. *)
Lemma StartAll_handles ctx bm (s : State W) :
  let att := attempts ctx (execOrder bm) bm s in
  exists hs,
    processes (StartAll ctx bm s).1.2 = processes bm ++ hs /\
    Path <$> hs = executable_path bm <$> (List.filter succeeded att).*1 /\
    length hs = successes att /\
    Forall (fun cmd => is_Some (Proc cmd)) hs.
Proof.
  intros att.
  destruct (StartAll_unfold ctx bm s) as (-> & _).
  destruct (StartAll_loop_handles ctx (execOrder bm) bm 0 s) as (hs & Hp & Hpath & Hall).
  exists hs. split_and!; try done.
  apply (f_equal length) in Hpath. rewrite !length_fmap in Hpath.
  exact Hpath.
Qed.

(** C1. [StartAll] returns the error "failed to start any binaries"
    (the specification's NoBinariesStartedError) if and only if none of
    the attempts for the names of [execOrder] succeeded, and it returns
    no error if and only if at least one did, however many failed. *)
Theorem StartAll_error_iff_no_success ctx bm (s : State W) :
  let r := StartAll ctx bm s in
  let n := successes (attempts ctx (execOrder bm) bm s) in
  ((exists e, r.1.1 = Some e /\ kind_of e = NoBinariesStartedError)
     <-> n = 0%nat) /\
  (r.1.1 = None <-> (0 < n)%nat).
Proof.
  intros r n.
  destruct (StartAll_unfold ctx bm s) as (_ & _ & _ & Hz & Hnz).
  rewrite (StartAll_loop_count ctx (execOrder bm) bm 0 s) in Hz, Hnz.
  simpl in Hz, Hnz. fold n in Hz, Hnz. fold r in Hz, Hnz.
  destruct (decide (n = 0%nat)) as [Hn|Hn].
  - destruct (Hz Hn) as [Hr _]. split; split.
    + done.
    + intros _. exists ErrStartedNone. by rewrite Hr.
    + rewrite Hr. done.
    + lia.
  - destruct (Hnz Hn) as [Hr _]. split; split.
    + intros (e & He & _). rewrite Hr in He. done.
    + done.
    + lia.
    + done.
Qed.

(** C2. On a manager that comes out of the constructor, after
    [StartAll] the process count is the number of names of [execOrder]
    whose attempt succeeded: the handle list holds exactly one handle
    per such attempt, each with a process.  The count lies between 0
    and the length of [execOrder]. *)
Theorem StartAll_process_count ue bins bp eo (s0 s1 : State W) bm err ctx s :
  NewBinaryManager ue bins bp eo s0 = ((Some bm, err), s1) ->
  let bm' := (StartAll ctx bm s).1.2 in
  let att := attempts ctx eo bm s in
  GetProcessCount bm' = successes att /\
  Path <$> processes bm' = executable_path bm <$> (List.filter succeeded att).*1 /\
  Forall (fun cmd => is_Some (Proc cmd)) (processes bm') /\
  (0 <= GetProcessCount bm' <= length eo)%nat.
Proof.
  intros Hnew bm' att.
  apply NewBinaryManager_fresh in Hnew as (_ & Hp & Ho & _).
  destruct (StartAll_handles ctx bm s) as (hs & Hhs & Hpath & Hlen & Hall).
  rewrite Hp in Hhs. simpl in Hhs. rewrite Ho in Hpath, Hlen.
  fold bm' in Hhs. fold att in Hpath, Hlen.
  unfold GetProcessCount. rewrite Hhs. split_and!; try done; try lia.
  rewrite Hlen. pose proof (successes_le att) as Hle.
  assert (length att = length eo) as <-; [|done].
  pose proof (attempts_names ctx eo bm s) as Hn. fold att in Hn.
  apply (f_equal length) in Hn. by rewrite length_fmap in Hn.
Qed.

(** C3. [StartAll] makes one attempt for every name of [execOrder], in
    that order and one after the other: the calls it makes are the
    calls of the attempt for the first name, then those of the attempt
    for the second, and so on, each attempt beginning with the read or
    the existence check for its name and containing besides only the
    write, the chmod and the start for that name; the log lines that
    end the attempts give the results of the names in order.  A failed
    attempt is followed by the attempts for the remaining names. *)
Theorem StartAll_attempts_in_order ctx bm (s : State W) :
  let r := StartAll ctx bm s in
  let att := attempts ctx (execOrder bm) bm s in
  att.*1 = execOrder bm /\
  exists segs ls,
    calls r.2 = calls s ++ concat segs /\
    Forall2 (attempt_segment bm) (execOrder bm) segs /\
    logs r.2 = logs s ++ ls /\
    omap outcome_of_log ls = att.
Proof.
  intros r att. split; [apply attempts_names|].
  destruct (StartAll_unfold ctx bm s) as (_ & Hc & _ & Hz & Hnz).
  fold r in Hc, Hz, Hnz.
  destruct (StartAll_loop_trace ctx (execOrder bm) bm 0 s)
    as (segs & ls & Hcs & Hsegs & Hls & Hout).
  destruct (decide ((StartAll_loop ctx (execOrder bm) bm 0 s).1.1 = 0%nat))
    as [Hn|Hn].
  - destruct (Hz Hn) as [_ Hl]. exists segs, ls.
    rewrite Hc, Hl. done.
  - destruct (Hnz Hn) as [_ Hl]. eexists segs, (ls ++ [_]).
    rewrite Hc, Hl, Hls, <- app_assoc. split_and!; try done.
    rewrite omap_app. simpl. by rewrite app_nil_r.
Qed.

End StartAll.

(** ** [Cleanup] *)

Section Cleanup.
Context {W : Type} `{Env W}.

(** The loop signals the handles that have a process, in order, and
    goes on whatever a signal returns. *)
Lemma Cleanup_loop_calls cmds : forall i (s : State W),
  calls (Cleanup_loop i cmds s).2 = calls s ++ (CallKill <$> omap Proc cmds).
Proof.
  induction cmds as [|cmd rest IH]; intros i s; simpl.
  - by rewrite app_nil_r.
  - unfold bind, call_write, log_Printf, ret.
    destruct (Proc cmd) as [p|]; simpl.
    + destruct (process_Kill p (world s)) as [[e|] w]; simpl;
        rewrite IH; simpl; by rewrite <- app_assoc.
    + by rewrite IH.
Qed.

Lemma Cleanup_manager bm (s : State W) : (Cleanup bm s).1 = bm.
Proof.
  unfold Cleanup, bind, ret.
  by destruct (Cleanup_loop 0 (processes bm) s).
Qed.

Lemma Cleanup_calls bm (s : State W) :
  calls (Cleanup bm s).2 = calls s ++ kill_calls bm.
Proof.
  unfold Cleanup, bind, ret, kill_calls.
  rewrite <- (Cleanup_loop_calls (processes bm) 0 s).
  by destruct (Cleanup_loop 0 (processes bm) s).
Qed.

(** C8. [Cleanup] is a total function without an error result.  Called
    once or twice in a row, in any state and whatever the signals
    return, it leaves the manager as it was and signals exactly the
    handles whose process is not nil, in order; with no handle it does
    nothing at all. *)
Theorem Cleanup_safe bm (s : State W) :
  let r1 := Cleanup bm s in
  let r2 := Cleanup r1.1 r1.2 in
  r1.1 = bm /\ r2.1 = bm /\
  calls r1.2 = calls s ++ kill_calls bm /\
  calls r2.2 = calls r1.2 ++ kill_calls bm /\
  (processes bm = [] -> r1 = (bm, s)).
Proof.
  intros r1 r2. subst r2.
  assert (r1.1 = bm) as Hr1 by apply Cleanup_manager.
  split_and!.
  - done.
  - by rewrite Cleanup_manager.
  - apply Cleanup_calls.
  - rewrite Cleanup_calls. by rewrite Hr1.
  - intros Hnil. subst r1. unfold Cleanup. rewrite Hnil. reflexivity.
Qed.

(** C10. However many times [Cleanup] is called, the handle list, and
    with it the process count, stays what it was. *)
Theorem Cleanup_keeps_processes n bm (s : State W) :
  let bm' := (Cleanup_times n bm s).1 in
  processes bm' = processes bm /\ GetProcessCount bm' = GetProcessCount bm.
Proof.
  revert bm s. induction n as [|n IH]; intros bm s; simpl; [done|].
  unfold bind. pose proof (Cleanup_manager bm s) as Hm.
  destruct (Cleanup bm s) as [bm1 s1]. simpl in Hm. subst bm1.
  apply IH.
Qed.

End Cleanup.

(** ** Rejected settings *)

Section Settings.
Context {W : Type} `{Env W}.

(** The first check of [NewBinaryManagerFromConfig]. *)
Lemma NewBinaryManagerFromConfig_disabled {T : Type} `{BinariesConfig T}
    (c : T) (binaries : embed_FS) (s : State W) :
  IsEnabled c = false ->
  NewBinaryManagerFromConfig (Some c) binaries s = ((None, Some ErrDisabled), s).
Proof. intros Hoff. simpl. by rewrite Hoff. Qed.

(** Its second check. *)
Lemma NewBinaryManagerFromConfig_no_order {T : Type} `{BinariesConfig T}
    (c : T) (binaries : embed_FS) (s : State W) :
  IsEnabled c = true -> GetStartupOrder c = [] ->
  NewBinaryManagerFromConfig (Some c) binaries s
  = ((None, Some ErrNoStartupOrder), s).
Proof. intros Hon Hnil. simpl. by rewrite Hon, Hnil. Qed.

(** C7. With no configuration object, with the feature disabled, or
    with an empty start-up order, [NewBinaryManagerFromConfig] returns
    no manager and a configuration error, and the state it returns is
    the state it was given: no library call was made, so no directory
    was created and no binary touched.  Being a function, it does so
    every time. *)
Theorem NewBinaryManagerFromConfig_rejects {T : Type} `{BinariesConfig T}
    (cfg : option T) (binaries : embed_FS) (s : State W) :
  (cfg = None \/
   exists c, cfg = Some c /\ (IsEnabled c = false \/ GetStartupOrder c = [])) ->
  exists e,
    NewBinaryManagerFromConfig cfg binaries s = ((None, Some e), s) /\
    kind_of e = ConfigError.
Proof.
  intros [-> | (c & -> & Hc)].
  - by exists ErrDisabled.
  - destruct (IsEnabled c) eqn:En.
    + destruct Hc as [Hc | Hc]; [done|].
      exists ErrNoStartupOrder. split; [|done].
      by apply NewBinaryManagerFromConfig_no_order.
    + exists ErrDisabled. split; [|done].
      by apply NewBinaryManagerFromConfig_disabled.
Qed.

(** C9. When the settings are disabled, absent or without a start-up
    order (and [backend.NewAPI] worked), [NewApp] logs the error and
    still returns an application, whose manager is nil; on that
    application [startup] only sets the context and [shutdown] does
    nothing. *)
Theorem NewApp_without_manager (binaries : embed_FS) (cfg : config.Config)
    (s : State W) (api : API) (w' : W) :
  backend_NewAPI (world s) = (inl api, w') ->
  (config.IsEnabled (config.Binaries cfg) = false \/
   config.GetStartupOrder (config.Binaries cfg) = []) ->
  exists e,
    kind_of e = ConfigError /\
    main.NewApp binaries cfg s
      = (inr (main.mkApp None api None),
         mkState w' (calls s ++ [CallNewAPI]) (logs s ++ [LogBinaryManager e])) /\
    (forall c s2,
       main.startup (main.mkApp None api None) c s2
       = (main.mkApp (Some c) api None,
          mkState (api_SetContext api c (world s2))
                  (calls s2 ++ [CallSetContext c]) (logs s2))) /\
    (forall c s2,
       main.shutdown (main.mkApp None api None) c s2
       = (main.mkApp None api None, s2)).
Proof.
  intros Hapi Hcfg.
  assert (exists e, kind_of e = ConfigError /\
            NewBinaryManagerFromConfig (Some (config.Binaries cfg)) binaries
              (mkState w' (calls s ++ [CallNewAPI]) (logs s))
            = ((None, Some e), mkState w' (calls s ++ [CallNewAPI]) (logs s)))
    as (e & Hk & He).
  { destruct (config.IsEnabled (config.Binaries cfg)) eqn:En.
    - destruct Hcfg as [Hcfg | Hcfg]; [done|].
      exists ErrNoStartupOrder. split; [done|].
      by apply NewBinaryManagerFromConfig_no_order.
    - exists ErrDisabled. split; [done|].
      by apply NewBinaryManagerFromConfig_disabled. }
  exists e. split_and!; try done.
  unfold main.NewApp, bind, call_write. rewrite Hapi.
  cbv beta iota zeta. rewrite He. reflexivity.
Qed.

End Settings.

(** ** Resolving a binary *)

Section Resolve.
Context {W : Type} `{EnvLaws W}.

(** What a started command says about the file it ran. *)
Lemma startBinary_run_ok ctx bm name path (s : State W) bm' s' :
  startBinary_run ctx bm name path s = ((None, bm'), s') ->
  is_executable (world s') path = true /\
  fs_exists (world s') path = fs_exists (world s) path /\
  fs_contents (world s') path = fs_contents (world s) path.
Proof.
  unfold startBinary_run, bind, call_write, log_Printf, ret.
  destruct (cmd_Start _ (world s)) as [[p|e] w1] eqn:Est; [|done].
  intros [= <- <-]. simpl.
  apply start_ok in Est as [Hx Hfs]. simpl in Hx.
  destruct (Hfs path) as (He & Hc & Hm).
  unfold is_executable in *. by rewrite Hm, He, Hc.
Qed.

(** C4. Embedded mode.  The attempt first reads the bytes stored for
    the name in the payload.  When there are none it fails with the
    read error (PayloadNotFoundError) after that one call: nothing is
    written or started and the manager is unchanged.  When there are, it
    writes exactly those bytes to the path of the name in the cache
    directory with permission 0755; a failed write ends the attempt
    with the write error (ExtractionError), nothing being started.  When
    the attempt succeeds, the file at that path exists, is executable
    and holds the payload's bytes. *)
Theorem startBinary_embedded ctx bm name (s : State W) :
  useEmbedded bm = true ->
  let source := filepath_Join ["bin"; name] in
  let path := filepath_Join [cacheDir bm; name] in
  let r := startBinary ctx bm name s in
  (binaries bm !! source = None ->
     exists e,
       kind_of e = PayloadNotFoundError /\
       r = ((Some e, bm),
            mkState (world s) (calls s ++ [CallReadFile source]) (logs s))) /\
  (forall data, binaries bm !! source = Some data ->
     (exists cs,
        calls r.2
        = calls s ++ [CallReadFile source; CallWriteFile path data perm_0755] ++ cs) /\
     (forall e w1,
        os_WriteFile path data perm_0755 (world s) = (Some e, w1) ->
        kind_of (ErrWriteBinary name e) = ExtractionError /\
        r = ((Some (ErrWriteBinary name e), bm),
             mkState w1
               (calls s ++ [CallReadFile source; CallWriteFile path data perm_0755])
               (logs s))) /\
     (r.1.1 = None ->
        fs_exists (world r.2) path = true /\
        is_executable (world r.2) path = true /\
        fs_contents (world r.2) path = Some data)).
Proof.
  intros Hemb source path r. subst r.
  unfold startBinary. rewrite Hemb. fold source. fold path.
  unfold bind, call_read, fs_ReadFile. simpl.
  split.
  - intros ->. eexists. split; [|reflexivity]. reflexivity.
  - intros data ->. unfold call_write. simpl.
    destruct (os_WriteFile path data perm_0755 (world s)) as [[e|] w1] eqn:Ew.
    + simpl. split_and!.
      * exists []. by rewrite <- app_assoc.
      * intros e' w1' [= <- <-]. split; [done|]. by rewrite <- app_assoc.
      * done.
    + apply write_file_ok in Ew as [Hex Hco].
      simpl.
      match goal with
      | |- context [startBinary_run ctx bm name path ?st] =>
          destruct (startBinary_run ctx bm name path st) as [[err bm'] s'] eqn:Er
      end.
      simpl. split_and!.
      * unfold startBinary_run, bind, call_write, log_Printf, ret in Er.
        simpl in Er. repeat (case_match; simplify_eq/=).
        all: eexists; rewrite <- !app_assoc; reflexivity.
      * intros e w1' [=].
      * intros ->. apply startBinary_run_ok in Er as (Hx & He & Hc).
        simpl in He, Hc. by rewrite Hx, He, Hc.
Qed.

(** C5. Local mode.  When nothing exists at the path of the name, the
    attempt fails with the not-found error (BinaryNotFoundError) after
    the existence check alone, so nothing is started for the name, and
    the loop of [StartAll] goes on with the names that follow.  When
    the file is there and the chmod fails, the failure is logged as a
    warning and the command is started all the same: the attempt
    succeeds exactly when the start does. *)
Theorem startBinary_local ctx bm name (s : State W) :
  useEmbedded bm = false ->
  let path := filepath_Join [cacheDir bm; name] in
  (fs_exists (world s) path = false ->
     exists e,
       kind_of e = BinaryNotFoundError /\
       startBinary ctx bm name s
       = ((Some e, bm), mkState (world s) (calls s ++ [CallStat path]) (logs s)) /\
       forall rest k,
         StartAll_loop ctx (name :: rest) bm k s
         = StartAll_loop ctx rest bm k
             (mkState (world s) (calls s ++ [CallStat path])
                      (logs s ++ [LogFailedToStart name e]))) /\
  (forall e w1,
     os_Stat path (world s) = None ->
     os_Chmod path perm_0755 (world s) = (Some e, w1) ->
     let cmd := mkCmd ctx path (cacheDir bm) None in
     let r := startBinary ctx bm name s in
     r = startBinary_run ctx bm name path
           (mkState w1 (calls s ++ [CallStat path; CallChmod path perm_0755])
                    (logs s ++ [LogChmodWarning name e; LogLocalBinary path])) /\
     calls r.2
     = calls s ++ [CallStat path; CallChmod path perm_0755; CallStart cmd] /\
     (r.1.1 = None <-> exists p w2, cmd_Start cmd w1 = (inl p, w2))).
Proof.
  intros Hloc path. split.
  - intros Habs. apply stat_absent in Habs as [e He].
    assert (startBinary ctx bm name s
            = ((Some (ErrNotFound name path e), bm),
               mkState (world s) (calls s ++ [CallStat path]) (logs s))) as Hsb.
    { unfold startBinary. rewrite Hloc. fold path.
      unfold bind, call_read. simpl. by rewrite He. }
    exists (ErrNotFound name path e). split_and!; [done|done|].
    intros rest k. simpl. unfold bind, StartAll_body, bind. rewrite Hsb.
    reflexivity.
  - intros e w1 Hst Hch cmd r.
    assert (r = startBinary_run ctx bm name path
                  (mkState w1 (calls s ++ [CallStat path; CallChmod path perm_0755])
                     (logs s ++ [LogChmodWarning name e; LogLocalBinary path])))
      as Hr.
    { subst r. unfold startBinary. rewrite Hloc. fold path.
      unfold bind, call_read, call_write, log_Printf. simpl.
      rewrite Hst. simpl. rewrite Hch. simpl. by rewrite <- !app_assoc. }
    split; [exact Hr|]. rewrite Hr.
    unfold startBinary_run, bind, call_write, log_Printf, ret. simpl.
    fold cmd.
    destruct (cmd_Start cmd w1) as [[p|e'] w2]; simpl.
    + split; [by rewrite <- app_assoc|]. split; [by eauto|done].
    + split; [by rewrite <- app_assoc|]. split; [done|]. by intros (? & ? & ?).
Qed.

End Resolve.

(** ** Repeated names *)

Section Repeats.
Context {W : Type} `{Env W}.



End Repeats.

(** ** The small operating system meets the assumptions *)

#[global] Instance sim_EnvLaws : EnvLaws sim.OS.
Proof.
  split.
  - intros w path Hex. simpl in *. unfold sim.Stat. rewrite Hex. by eexists.
  - intros w w' path data perm. simpl. unfold sim.WriteFile, sim.exists_at.
    intros Hw. repeat (case_match; simplify_eq/=).
    all: split; [|by rewrite lookup_insert_eq].
    all: apply orb_true_iff; left; apply bool_decide_eq_true.
    all: rewrite lookup_insert_eq; by eexists.
  - intros w w' cmd p. simpl. unfold sim.Start, is_executable. simpl.
    intros Hs. repeat (case_match; simplify_eq/=); done.
Qed.

(** ** The program on the sample inputs *)

Section Samples.
Import sim scenario.

(** The end-to-end scenario of the specification: embedded mode, order
    "a", "b", a payload for "a" only.  [StartAll] succeeds, one process
    runs, and the file of "a" is in the cache directory. *)
Example end_to_end :
  let r := StartAll 0 embedded_bm embedded_state in
  r.1.1 = None /\ GetProcessCount r.1.2 = 1%nat /\
  fs_contents (world r.2) "/home/u/.cache/wachat/bin/a" = Some [Byte.x7f; Byte.x45].
Proof. vm_compute. done. Qed.

(** A second [Cleanup] finds the children gone: each signal fails, and
    the call returns all the same. *)
Example cleanup_twice :
  let r := StartAll 0 (local_bm ["a"; "c"]) local_state in
  let c1 := Cleanup r.1.2 r.2 in
  let c2 := Cleanup c1.1 c1.2 in
  alive <$> children (world c1.2) = [false; false] /\
  drop (length (logs c1.2)) (logs c2.2)
  = [LogTerminating 0 100; LogKillFailed 0 "os: process already finished";
     LogTerminating 1 101; LogKillFailed 1 "os: process already finished"] /\
  c2.1 = r.1.2.
Proof. vm_compute. done. Qed.


(** C2 on the sample: the embedded manager as the constructor builds it. *)
Lemma StartAll_process_count_witness :
  NewBinaryManager true payload "./bin" ["a"; "b"] (boot empty_os)
  = ((Some embedded_bm, None), embedded_state) /\
  GetProcessCount (StartAll 0 embedded_bm embedded_state).1.2
  = successes (attempts 0 ["a"; "b"] embedded_bm embedded_state) /\
  (0 <= GetProcessCount (StartAll 0 embedded_bm embedded_state).1.2 <= 2)%nat.
Proof.
  assert (NewBinaryManager true payload "./bin" ["a"; "b"] (boot empty_os)
          = ((Some embedded_bm, None), embedded_state)) as Hnew
    by (vm_compute; reflexivity).
  split; [exact Hnew|].
  destruct (StartAll_process_count _ _ _ _ _ _ _ _ 0%nat embedded_state Hnew)
    as (Hc & _ & _ & Hb).
  split; [exact Hc | exact Hb].
Defined.


(** C7 on the sample: enabled settings with an empty order. *)
Lemma NewBinaryManagerFromConfig_rejects_witness :
  config.GetStartupOrder (config.Binaries no_order) = [] /\
  exists e,
    NewBinaryManagerFromConfig (Some (config.Binaries no_order)) payload
      (boot empty_os)
    = ((None, Some e), boot empty_os) /\
    kind_of e = ConfigError.
Proof.
  split; [reflexivity|].
  apply (NewBinaryManagerFromConfig_rejects
           (Some (config.Binaries no_order)) payload (boot empty_os)).
  right. exists (config.Binaries no_order). split; [reflexivity|].
  right. reflexivity.
Defined.

(** C9 on the sample: disabled settings. *)
Lemma NewApp_without_manager_witness :
  backend_NewAPI (world (boot empty_os)) = (inl 0%nat, empty_os) /\
  config.IsEnabled (config.Binaries disabled) = false /\
  exists e,
    main.NewApp payload disabled (boot empty_os)
    = (inr (main.mkApp None 0%nat None),
       mkState empty_os [CallNewAPI] [LogBinaryManager e]).
Proof.
  assert (backend_NewAPI (world (boot empty_os)) = (inl 0%nat, empty_os))
    as Hapi by reflexivity.
  assert (config.IsEnabled (config.Binaries disabled) = false)
    as Hoff by reflexivity.
  split; [exact Hapi|]. split; [exact Hoff|].
  destruct (NewApp_without_manager payload disabled (boot empty_os) 0%nat
              empty_os Hapi (or_introl Hoff))
    as (e & _ & Happ & _).
  exists e. exact Happ.
Defined.

(** C4 on the sample: the attempt for "a" in embedded mode. *)
Lemma startBinary_embedded_witness :
  useEmbedded embedded_bm = true /\
  let r := startBinary 0 embedded_bm "a" embedded_state in
  r.1.1 = None /\
  fs_exists (world r.2) "/home/u/.cache/wachat/bin/a" = true /\
  is_executable (world r.2) "/home/u/.cache/wachat/bin/a" = true /\
  fs_contents (world r.2) "/home/u/.cache/wachat/bin/a"
  = Some [Byte.x7f; Byte.x45].
Proof.
  split; [reflexivity|].
  destruct (startBinary_embedded 0%nat embedded_bm "a" embedded_state eq_refl)
    as [_ Hsome].
  destruct (Hsome [Byte.x7f; Byte.x45] eq_refl) as (_ & _ & Hok).
  assert ((startBinary 0 embedded_bm "a" embedded_state).1.1 = None) as Hr
    by (vm_compute; reflexivity).
  split; [exact Hr|]. exact (Hok Hr).
Defined.

(** C5 on the sample: "b" is missing, the chmod of "c" is refused. *)
Lemma startBinary_local_witness :
  useEmbedded (local_bm ["b"; "c"]) = false /\
  fs_exists local_os "/opt/wachat/bin/b" = false /\
  (exists e,
     kind_of e = BinaryNotFoundError /\
     startBinary 0 (local_bm ["b"; "c"]) "b" local_state
     = ((Some e, local_bm ["b"; "c"]),
        mkState local_os [CallStat "/opt/wachat/bin/b"] [LogLocalDir local_dir])) /\
  os_Chmod "/opt/wachat/bin/c" perm_0755 local_os
  = (Some "operation not permitted", local_os) /\
  (startBinary 0 (local_bm ["b"; "c"]) "c" local_state).1.1 = None.
Proof.
  split; [reflexivity|]. split; [vm_compute; reflexivity|].
  destruct (startBinary_local 0%nat (local_bm ["b"; "c"]) "b" local_state eq_refl)
    as [Habsent _].
  destruct (startBinary_local 0%nat (local_bm ["b"; "c"]) "c" local_state eq_refl)
    as [_ Hchmod].
  split.
  - destruct Habsent as (e & Hk & Hsb & _); [vm_compute; reflexivity|].
    exists e. split; [exact Hk | exact Hsb].
  - assert (os_Chmod "/opt/wachat/bin/c" perm_0755 local_os
            = (Some "operation not permitted", local_os)) as Hch
      by (vm_compute; reflexivity).
    split; [exact Hch|].
    destruct (Hchmod "operation not permitted" local_os) as (_ & _ & Hiff).
    + vm_compute; reflexivity.
    + exact Hch.
    + apply Hiff. eexists _, _. vm_compute. reflexivity.
Defined.

End Samples.

(** * Further properties of the binary manager *)

(** ** One attempt, in more detail *)

Section AttemptDetail.
Context {W : Type} `{Env W}.

(** What one turn of the loop calls, starts and reports. *)
Lemma StartAll_body_detail ctx bm name (s : State W) err bm' s' :
  StartAll_body ctx bm name s = ((err, bm'), s') ->
  exists cs ls,
    calls s' = calls s ++ cs /\
    logs s' = logs s ++ ls /\
    Forall (fun c => mode_call bm c = true) cs /\
    (length (List.filter is_start cs) <= 1)%nat /\
    match err with
    | None => exists p,
        bm' = append_process bm
                (mkCmd ctx (executable_path bm name) (cacheDir bm) (Some p)) /\
        omap started_pid ls = [Pid p] /\
        length (List.filter is_start cs) = 1%nat
    | Some e =>
        bm' = bm /\ omap started_pid ls = [] /\
        attempt_error_kind bm (kind_of e) = true
    end.
Proof.
  intros E.
  unfold StartAll_body, startBinary, startBinary_run, bind, call_read,
    call_write, log_Printf, ret in E.
  unfold mode_call, attempt_error_kind, executable_path.
  repeat (case_match; simplify_eq/=).
  all: do 2 eexists; rewrite <- ?app_assoc.
  all: split; [reflexivity|]; split; [reflexivity|].
  all: split; [by repeat constructor|]; split; [simpl; lia|].
  all: first [ by split_and! | eexists; by split_and! ].
Qed.

(** X4. An attempt that fails returns the manager it was given, with
    an error of a kind its mode allows (read, write or start error in
    embedded mode; not-found or start error in local mode).  An attempt
    that succeeds returns that manager with one more handle: the command
    for the path of the name, run in the cache directory under the
    caller's context, with the process the start returned; the last call
    made is that start and the last log line reports that process. *)
Theorem startBinary_outcome ctx bm name (s : State W) :
  let r := startBinary ctx bm name s in
  let cmd := mkCmd ctx (executable_path bm name) (cacheDir bm) None in
  match r.1.1 with
  | Some e =>
      r.1.2 = bm /\ attempt_error_kind bm (kind_of e) = true /\
      (kind_of e = LaunchError -> last (calls r.2) = Some (CallStart cmd))
  | None =>
      last (calls r.2) = Some (CallStart cmd) /\
      exists p w,
        cmd_Start cmd w = (inl p, world r.2) /\
        r.1.2 = append_process bm
                  (mkCmd ctx (executable_path bm name) (cacheDir bm) (Some p)) /\
        last (logs r.2) = Some (LogStarted name (Pid p))
  end.
Proof.
  unfold startBinary, startBinary_run, bind, call_read, call_write,
    log_Printf, ret, attempt_error_kind, executable_path.
  simpl.
  repeat (case_match; simplify_eq/=).
  all: rewrite ?last_snoc.
  all: try (split_and!; by eauto).
Qed.

End AttemptDetail.

(** ** [StartAll], in more detail *)

Section StartAllDetail.
Context {W : Type} `{Env W}.

Lemma Process_eta (p : Process) : mkProcess (Pid p) = p.
Proof. by destruct p. Qed.

(** The loop: its calls are those of the mode, it starts at most one
    command per name and at least one per success, and the processes of
    the handles it adds are those its log reports as started. *)
Lemma StartAll_loop_detail ctx names : forall bm k (s : State W),
  let r := StartAll_loop ctx names bm k s in
  exists cs ls hs,
    calls r.2 = calls s ++ cs /\
    logs r.2 = logs s ++ ls /\
    processes r.1.2 = processes bm ++ hs /\
    Forall (fun c => mode_call bm c = true) cs /\
    (successes (attempts ctx names bm s)
       <= length (List.filter is_start cs) <= length names)%nat /\
    omap Proc hs = mkProcess <$> omap started_pid ls.
Proof.
  induction names as [|name rest IH]; intros bm k s; simpl.
  - exists [], [], []. rewrite !app_nil_r. unfold successes. simpl.
    split_and!; try done; lia.
  - unfold bind.
    destruct (StartAll_body ctx bm name s) as [[err bm'] s'] eqn:E.
    apply StartAll_body_detail in E
      as (cs1 & ls1 & Hc & Hl & Hmode & Hle & Hm).
    destruct err as [e|]; simpl.
    + destruct Hm as (-> & Hpid & _).
      destruct (IH bm k s') as (cs2 & ls2 & hs & Hc2 & Hl2 & Hp2 & Hmode2 & Hn2 & Hpid2).
      exists (cs1 ++ cs2), (ls1 ++ ls2), hs. split_and!.
      * by rewrite Hc2, Hc, <- app_assoc.
      * by rewrite Hl2, Hl, <- app_assoc.
      * done.
      * by apply Forall_app.
      * rewrite List.filter_app, length_app. unfold successes in *. simpl. lia.
      * rewrite List.filter_app, length_app. lia.
      * by rewrite omap_app, Hpid, Hpid2.
    + destruct Hm as (p & -> & Hpid & Hone).
      destruct (IH (append_process bm
                      (mkCmd ctx (executable_path bm name) (cacheDir bm) (Some p)))
                   (S k) s')
        as (cs2 & ls2 & hs & Hc2 & Hl2 & Hp2 & Hmode2 & Hn2 & Hpid2).
      eexists (cs1 ++ cs2), (ls1 ++ ls2), (_ :: hs). split_and!.
      * by rewrite Hc2, Hc, <- app_assoc.
      * by rewrite Hl2, Hl, <- app_assoc.
      * rewrite Hp2. simpl. by rewrite <- app_assoc.
      * by apply Forall_app.
      * rewrite List.filter_app, length_app. unfold successes in *. simpl. lia.
      * rewrite List.filter_app, length_app. lia.
      * rewrite omap_app, Hpid.
        change (p :: omap Proc hs
                = mkProcess (Pid p) :: (mkProcess <$> omap started_pid ls2)).
        by rewrite Hpid2, Process_eta.
Qed.

(** The same for [StartAll]. *)
Lemma StartAll_detail ctx bm (s : State W) :
  let r := StartAll ctx bm s in
  exists cs ls hs,
    calls r.2 = calls s ++ cs /\
    logs r.2 = logs s ++ ls /\
    processes r.1.2 = processes bm ++ hs /\
    Forall (fun c => mode_call bm c = true) cs /\
    (successes (attempts ctx (execOrder bm) bm s)
       <= length (List.filter is_start cs) <= length (execOrder bm))%nat /\
    omap Proc hs = mkProcess <$> omap started_pid ls.
Proof.
  intros r.
  destruct (StartAll_unfold ctx bm s) as (Hbm & Hc & _ & Hz & Hnz).
  fold r in Hbm, Hc, Hz, Hnz.
  destruct (StartAll_loop_detail ctx (execOrder bm) bm 0 s)
    as (cs & ls & hs & Hcs & Hls & Hp & Hmode & Hn & Hpid).
  rewrite <- Hbm in Hp. rewrite <- Hc in Hcs.
  destruct (decide ((StartAll_loop ctx (execOrder bm) bm 0 s).1.1 = 0%nat))
    as [Hn0|Hn0].
  - destruct (Hz Hn0) as [_ Hl]. exists cs, ls, hs.
    rewrite Hl. split_and!; try done; lia.
  - destruct (Hnz Hn0) as [_ Hl]. eexists cs, (ls ++ [_]), hs.
    rewrite Hl, Hls, <- app_assoc. split_and!; try done; try lia.
    rewrite omap_app. simpl. by rewrite app_nil_r.
Qed.

(** The settings of the manager after [StartAll]. *)
Lemma StartAll_settings ctx bm (s : State W) :
  let bm' := (StartAll ctx bm s).1.2 in
  useEmbedded bm' = useEmbedded bm /\ binaries bm' = binaries bm /\
  binPath bm' = binPath bm /\ execOrder bm' = execOrder bm /\
  cacheDir bm' = cacheDir bm.
Proof.
  destruct (StartAll_unfold ctx bm s) as (-> & _).
  apply StartAll_loop_settings.
Qed.

Lemma BinaryManager_ext (bm bm' : BinaryManager) :
  useEmbedded bm' = useEmbedded bm -> binaries bm' = binaries bm ->
  binPath bm' = binPath bm -> processes bm' = processes bm ->
  execOrder bm' = execOrder bm -> cacheDir bm' = cacheDir bm ->
  bm' = bm.
Proof. destruct bm, bm'; simpl; intros; by subst. Qed.

(** X5. [StartAll] changes the manager only by appending handles: the
    mode, the payload, the paths and the order stay what they were, the
    handles that were there stay in front in their order, and the
    process count grows by the number of successful attempts.  A second
    [StartAll] therefore adds to the handles of the first. *)
Theorem StartAll_only_appends ctx bm (s : State W) :
  let bm' := (StartAll ctx bm s).1.2 in
  let n := successes (attempts ctx (execOrder bm) bm s) in
  (useEmbedded bm' = useEmbedded bm /\ binaries bm' = binaries bm /\
   binPath bm' = binPath bm /\ execOrder bm' = execOrder bm /\
   cacheDir bm' = cacheDir bm) /\
  (exists hs, processes bm' = processes bm ++ hs /\ length hs = n) /\
  GetProcessCount bm' = (GetProcessCount bm + n)%nat.
Proof.
  intros bm' n. split; [apply StartAll_settings|].
  destruct (StartAll_handles ctx bm s) as (hs & Hp & _ & Hlen & _).
  fold bm' in Hp. fold n in Hlen. split.
  - by exists hs.
  - unfold GetProcessCount. rewrite Hp, length_app. lia.
Qed.

(** X6. When [StartAll] returns an error, the error is "failed to start
    any binaries", the manager is exactly the one it was given, and no
    log line reports a started process. *)
Theorem StartAll_error_keeps_manager ctx bm (s : State W) :
  let r := StartAll ctx bm s in
  match r.1.1 with
  | Some e =>
      e = ErrStartedNone /\ r.1.2 = bm /\
      exists ls, logs r.2 = logs s ++ ls /\ omap started_pid ls = []
  | None => True
  end.
Proof.
  intros r.
  destruct (StartAll_unfold ctx bm s) as (_ & _ & _ & Hz & Hnz).
  pose proof (StartAll_loop_count ctx (execOrder bm) bm 0 s) as Hcount.
  destruct (StartAll_detail ctx bm s)
    as (cs & ls & hs & _ & Hls & Hp & _ & _ & Hpid).
  destruct (StartAll_handles ctx bm s) as (hs' & Hp' & _ & Hlen & _).
  pose proof (StartAll_settings ctx bm s) as (? & ? & ? & ? & ?).
  fold r in Hz, Hnz, Hls, Hp, Hp'.
  destruct (decide ((StartAll_loop ctx (execOrder bm) bm 0 s).1.1 = 0%nat))
    as [Hn0|Hn0].
  - destruct (Hz Hn0) as [Hr _]. rewrite Hr.
    rewrite Hcount in Hn0. simpl in Hn0. rewrite Hn0 in Hlen.
    destruct hs'; [|done]. rewrite app_nil_r in Hp'.
    rewrite Hp' in Hp. apply (f_equal length) in Hp.
    rewrite length_app in Hp. destruct hs; [|simpl in Hp; lia].
    simpl in Hpid. symmetry in Hpid. apply fmap_nil_inv in Hpid.
    split_and!; [done | by apply BinaryManager_ext | by exists ls].
  - destruct (Hnz Hn0) as [Hr _]. by rewrite Hr.
Qed.

(** X7. When [StartAll] returns no error, its last log line is the
    summary "Started n/m binaries successfully" in which [n] is the
    number of successful attempts, which is at least one and is the
    number of handles added, and [m] is the length of [execOrder]. *)
Theorem StartAll_summary_is_accurate ctx bm (s : State W) :
  let r := StartAll ctx bm s in
  let n := successes (attempts ctx (execOrder bm) bm s) in
  match r.1.1 with
  | None =>
      last (logs r.2) = Some (LogSummary n (length (execOrder bm))) /\
      (1 <= n <= length (execOrder bm))%nat /\
      GetProcessCount r.1.2 = (GetProcessCount bm + n)%nat
  | Some _ => n = 0%nat
  end.
Proof.
  intros r n.
  destruct (StartAll_unfold ctx bm s) as (Hbm & _ & _ & Hz & Hnz).
  pose proof (StartAll_loop_count ctx (execOrder bm) bm 0 s) as Hcount.
  simpl in Hcount. fold n in Hcount.
  pose proof (StartAll_loop_settings ctx (execOrder bm) bm 0 s)
    as (_ & _ & _ & Hord & _).
  destruct (StartAll_handles ctx bm s) as (hs & Hp & _ & Hlen & _).
  fold r in Hz, Hnz, Hp. fold n in Hlen.
  rewrite Hcount, ?Hord in Hz, Hnz.
  destruct (decide (n = 0%nat)) as [Hn0|Hn0].
  - destruct (Hz Hn0) as [Hr _]. by rewrite Hr.
  - destruct (Hnz Hn0) as [Hr Hl]. rewrite Hr, Hl, last_snoc.
    simpl in Hord. rewrite Hord.
    split_and!; try done; try lia.
    + pose proof (successes_le (attempts ctx (execOrder bm) bm s)) as Hle.
      fold n in Hle.
      pose proof (attempts_names ctx (execOrder bm) bm s) as Hnames.
      apply (f_equal length) in Hnames. rewrite length_fmap in Hnames.
      lia.
    + unfold GetProcessCount. rewrite Hp, length_app. lia.
Qed.

(** X8. [StartAll] makes only the calls of its mode: in local mode the
    existence check, the chmod and the start, so it never writes a file;
    in embedded mode the read of the payload, the write and the start.
    It starts at most one command per name of [execOrder], and at least
    one per successful attempt. *)
Theorem StartAll_calls_by_mode ctx bm (s : State W) :
  let r := StartAll ctx bm s in
  exists cs,
    calls r.2 = calls s ++ cs /\
    Forall (fun c => mode_call bm c = true) cs /\
    (successes (attempts ctx (execOrder bm) bm s)
       <= length (List.filter is_start cs) <= length (execOrder bm))%nat.
Proof.
  intros r.
  destruct (StartAll_detail ctx bm s) as (cs & ls & hs & Hc & _ & _ & Hm & Hn & _).
  by exists cs.
Qed.

(** X9. With an empty [execOrder] (which [NewBinaryManager] itself
    accepts) [StartAll] returns the error at once: no call is made,
    nothing is logged and the manager is unchanged. *)
Theorem StartAll_empty_order ctx bm (s : State W) :
  execOrder bm = [] ->
  StartAll ctx bm s = ((Some ErrStartedNone, bm), s).
Proof. intros Hnil. unfold StartAll. rewrite Hnil. reflexivity. Qed.

End StartAllDetail.

(** ** [StartAll] and [Cleanup] together *)

Section CleanupDetail.
Context {W : Type} `{Env W}.

(** X10. A [Cleanup] that follows a [StartAll] signals the processes of
    the handles that were there before, and then exactly the processes
    the log of that [StartAll] reports as started, in the order they
    were started. *)
Theorem Cleanup_signals_started ctx bm (s : State W) :
  let r := StartAll ctx bm s in
  let c := Cleanup r.1.2 r.2 in
  exists ls,
    logs r.2 = logs s ++ ls /\
    calls c.2
    = calls r.2 ++ kill_calls bm
        ++ (CallKill <$> (mkProcess <$> omap started_pid ls)).
Proof.
  intros r c. subst c.
  destruct (StartAll_detail ctx bm s) as (cs & ls & hs & _ & Hls & Hp & _ & _ & Hpid).
  fold r in Hls, Hp. exists ls. split; [done|].
  rewrite Cleanup_calls. f_equal. unfold kill_calls.
  by rewrite Hp, omap_app, fmap_app, Hpid.
Qed.

(** The log lines of the loop of [Cleanup]. *)
Lemma Cleanup_loop_logs cmds : forall i (s : State W),
  exists ls,
    logs (Cleanup_loop i cmds s).2 = logs s ++ ls /\
    omap terminating ls = signalled i cmds /\
    Forall (fun l => cleanup_line l = true) ls.
Proof.
  induction cmds as [|cmd rest IH]; intros i s; simpl.
  - exists []. by rewrite app_nil_r.
  - unfold bind, call_write, log_Printf, ret.
    destruct (Proc cmd) as [p|]; simpl.
    + destruct (process_Kill p (world s)) as [[e|] w]; simpl.
      * match goal with
        | |- context [Cleanup_loop (S i) rest ?st] =>
            destruct (IH (S i) st) as (ls & Hl & Ht & Hc)
        end.
        exists (LogTerminating i (Pid p) :: LogKillFailed i e :: ls).
        rewrite Hl. split_and!.
        -- simpl. by rewrite <- !app_assoc.
        -- simpl. f_equal. exact Ht.
        -- by repeat constructor.
      * match goal with
        | |- context [Cleanup_loop (S i) rest ?st] =>
            destruct (IH (S i) st) as (ls & Hl & Ht & Hc)
        end.
        exists (LogTerminating i (Pid p) :: ls).
        rewrite Hl. split_and!.
        -- simpl. by rewrite <- !app_assoc.
        -- simpl. f_equal. exact Ht.
        -- by repeat constructor.
    + apply IH.
Qed.

(** X11. [Cleanup] writes only "Terminating process" and "Failed to
    kill process" lines, and its "Terminating" lines are, in order, one
    per handle whose process is not nil, each with the position of the
    handle in the list (from 0) and the pid of its process. *)
Theorem Cleanup_log_lines bm (s : State W) :
  exists ls,
    logs (Cleanup bm s).2 = logs s ++ ls /\
    omap terminating ls = signalled 0 (processes bm) /\
    Forall (fun l => cleanup_line l = true) ls.
Proof.
  destruct (Cleanup_loop_logs (processes bm) 0 s) as (ls & Hl & Ht & Hc).
  exists ls. split_and!; try done.
  unfold Cleanup, bind, ret.
  by destruct (Cleanup_loop 0 (processes bm) s).
Qed.

End CleanupDetail.

(** ** The constructors, in more detail *)

Section ConstructionDetail.
Context {W : Type} `{Env W}.

(** Every error of [NewBinaryManager] is a configuration error. *)
Lemma NewBinaryManager_error_kind ue bins bp eo (s : State W) e :
  (NewBinaryManager ue bins bp eo s).1.2 = Some e -> kind_of e = ConfigError.
Proof.
  unfold NewBinaryManager, bind, call_read, call_write, log_Printf, ret.
  repeat (case_match; simplify_eq/=); by intros [= <-].
Qed.

(** [NewBinaryManagerFromConfig] returns a manager or an error, never
    both and never neither. *)
Lemma NewBinaryManagerFromConfig_result {T : Type} `{BinariesConfig T}
    (cfg : option T) (bins : embed_FS) (s : State W) :
  let r := NewBinaryManagerFromConfig cfg bins s in
  (is_Some r.1.1 /\ r.1.2 = None) \/ (r.1.1 = None /\ is_Some r.1.2).
Proof.
  destruct cfg as [c|]; simpl; [|by right].
  destruct (IsEnabled c); simpl; [|by right].
  destruct (length (GetStartupOrder c) =? 0)%nat; simpl; [by right|].
  unfold bind.
  match goal with
  | |- context [NewBinaryManager ?ue ?b ?bp ?eo s] =>
      pose proof (NewBinaryManager_result ue b bp eo s) as Hres;
      destruct (NewBinaryManager ue b bp eo s) as [[obm oerr] s1]
  end.
  simpl in Hres. unfold log_Printf, ret.
  destruct Hres as [[Hbm ->] | [-> [e ->]]]; simpl.
  - left. by destruct (IsUseEmbedded c).
  - right. by eauto.
Qed.

(** X1. [NewBinaryManagerFromConfig] returns either a manager and no
    error, or no manager and a configuration error.  A manager it returns
    was built from enabled settings: it has no handle, its order is the
    configured start-up order and is not empty, and its mode and payload
    are the configured mode and the payload given. *)
Theorem NewBinaryManagerFromConfig_outcome {T : Type} `{BinariesConfig T}
    (cfg : option T) (bins : embed_FS) (s : State W) :
  let r := NewBinaryManagerFromConfig cfg bins s in
  match r.1.1, r.1.2 with
  | Some bm, None =>
      exists c, cfg = Some c /\ IsEnabled c = true /\
        processes bm = [] /\ execOrder bm = GetStartupOrder c /\
        execOrder bm <> [] /\ useEmbedded bm = IsUseEmbedded c /\
        binaries bm = bins
  | None, Some e => kind_of e = ConfigError
  | _, _ => False
  end.
Proof.
  destruct cfg as [c|]; simpl; [|done].
  destruct (IsEnabled c) eqn:En; simpl; [|done].
  destruct (GetStartupOrder c) as [|name order] eqn:Eo; simpl; [done|].
  unfold bind.
  match goal with
  | |- context [NewBinaryManager ?ue ?b ?bp ?eo s] =>
      pose proof (NewBinaryManager_result ue b bp eo s) as Hres;
      pose proof (NewBinaryManager_error_kind ue b bp eo s) as Hkind;
      destruct (NewBinaryManager ue b bp eo s) as [[obm oerr] s1] eqn:Enew
  end.
  simpl in Hres, Hkind.
  destruct Hres as [[[bm ->] ->] | [-> [e ->]]]; simpl.
  - apply NewBinaryManager_fresh in Enew as (_ & Hp & Ho & Hu & Hb).
    unfold log_Printf, ret. destruct (IsUseEmbedded c) eqn:Eu; simpl.
    all: exists c; split_and!; try done; congruence.
  - unfold ret. simpl. by apply Hkind.
Qed.

(** X2. Local mode.  [NewBinaryManager] leaves the world as it is (it
    creates no directory) and makes no call but [filepath.Abs], and that
    only for a path that is not absolute.  The manager it returns has its
    cache directory equal to its bin path, which is the path given when
    that is absolute and the result of [filepath.Abs] otherwise; when
    [filepath.Abs] fails there is no manager, and nothing is logged. *)
Theorem NewBinaryManager_local bins bp eo (s : State W) :
  let r := NewBinaryManager false bins bp eo s in
  world r.2 = world s /\
  calls r.2 = calls s ++ (if filepath_IsAbs bp then [] else [CallAbs bp]) /\
  match r.1.1 with
  | Some bm =>
      r.1.2 = None /\ cacheDir bm = binPath bm /\
      (if filepath_IsAbs bp then binPath bm = bp
       else filepath_Abs bp (world s) = inl (binPath bm)) /\
      useEmbedded bm = false /\ execOrder bm = eo /\ processes bm = [] /\
      logs r.2 = logs s ++ [LogLocalDir (binPath bm)]
  | None =>
      filepath_IsAbs bp = false /\ logs r.2 = logs s /\
      exists e, filepath_Abs bp (world s) = inr e /\
                r.1.2 = Some (ErrResolveBinPath e)
  end.
Proof.
  unfold NewBinaryManager, bind, call_read, log_Printf, ret. simpl.
  destruct (filepath_IsAbs bp) eqn:Eabs; simpl.
  - rewrite app_nil_r. by split_and!.
  - destruct (filepath_Abs bp (world s)) as [p|e] eqn:Ep; simpl.
    + by split_and!.
    + split_and!; try done. by exists e.
Qed.

(** X3. Embedded mode.  The bin path plays no part: the cache directory
    is "wachat/bin" under the user cache directory.  When that directory
    is not known nothing is created; otherwise [MkdirAll] is called once,
    on the cache directory with permission 0755, and the manager is
    returned exactly when it succeeds.  Nothing is logged. *)
Theorem NewBinaryManager_embedded bins bp eo (s : State W) :
  let r := NewBinaryManager true bins bp eo s in
  logs r.2 = logs s /\
  match os_UserCacheDir (world s) with
  | inr e =>
      r = ((None, Some (ErrGetCacheDir e)),
           mkState (world s) (calls s ++ [CallUserCacheDir]) (logs s))
  | inl d =>
      let dir := filepath_Join [d; "wachat"; "bin"] in
      let made := os_MkdirAll dir perm_0755 (world s) in
      calls r.2 = calls s ++ [CallUserCacheDir; CallMkdirAll dir perm_0755] /\
      world r.2 = made.2 /\
      r.1 = match made.1 with
            | Some e => (None, Some (ErrCreateCacheDir e))
            | None => (Some (mkBinaryManager true bins bp [] eo dir), None)
            end
  end.
Proof.
  unfold NewBinaryManager, bind, call_read, call_write, ret. simpl.
  destruct (os_UserCacheDir (world s)) as [d|e]; simpl; [|done].
  destruct (os_MkdirAll _ perm_0755 (world s)) as [[e|] w]; simpl.
  all: rewrite <- app_assoc; by split_and!.
Qed.

End ConstructionDetail.

(** ** The application, in more detail *)

Section AppDetail.
Context {W : Type} `{Env W}.

(** X12. [NewApp] panics exactly when [backend.NewAPI] fails, and then
    it has done nothing else.  Otherwise it returns an application with
    the new API, no context yet, and whatever manager the constructor
    returned: none exactly when the constructor returned an error, which
    is then the one line [NewApp] logs. *)
Theorem NewApp_outcome (bins : embed_FS) (cfg : config.Config) (s : State W) :
  let r := main.NewApp bins cfg s in
  let s1 := mkState (backend_NewAPI (world s)).2 (calls s ++ [CallNewAPI]) (logs s) in
  match (backend_NewAPI (world s)).1 with
  | inr e => r = (inl ("Failed to initialize API: " +:+ e), s1)
  | inl api =>
      let c := NewBinaryManagerFromConfig (Some (config.Binaries cfg)) bins s1 in
      r.1 = inr (main.mkApp None api c.1.1) /\
      world r.2 = world c.2 /\ calls r.2 = calls c.2 /\
      match c.1.2 with
      | Some e => c.1.1 = None /\ logs r.2 = logs c.2 ++ [LogBinaryManager e]
      | None => is_Some c.1.1 /\ logs r.2 = logs c.2
      end
  end.
Proof.
  unfold main.NewApp, bind, call_write.
  destruct (backend_NewAPI (world s)) as [[api|e] w']; cbn [fst snd];
    cbv beta iota zeta; [|reflexivity].
  pose proof (NewBinaryManagerFromConfig_result (Some (config.Binaries cfg)) bins
                (mkState w' (calls s ++ [CallNewAPI]) (logs s))) as Hres.
  destruct (NewBinaryManagerFromConfig (Some (config.Binaries cfg)) bins
              (mkState w' (calls s ++ [CallNewAPI]) (logs s)))
    as [[obm oerr] s2].
  cbn [fst snd] in *. unfold log_Printf, ret.
  destruct Hres as [[Hbm ->] | [-> [e ->]]]; cbn [fst snd logs world calls];
    by split_and!.
Qed.

(** X13. On an application that has a manager, [startup] sets the
    context, runs [StartAll] and keeps the manager [StartAll] leaves,
    whatever it returns: a failure only adds a warning to the log.  The
    [shutdown] that follows leaves the application as it is and signals
    every handle of that manager: the ones that were there before
    [startup], then the ones [startup] added. *)
Theorem startup_then_shutdown (a : main.App) bm c c2 (s : State W) :
  main.binaryManager a = Some bm ->
  let s1 := mkState (api_SetContext (main.chatAPI a) c (world s))
                    (calls s ++ [CallSetContext c]) (logs s) in
  let st := StartAll c bm s1 in
  let r := main.startup a c s in
  let q := main.shutdown r.1 c2 r.2 in
  r.1 = main.mkApp (Some c) (main.chatAPI a) (Some st.1.2) /\
  world r.2 = world st.2 /\ calls r.2 = calls st.2 /\
  logs r.2 = logs st.2 ++ match st.1.1 with
                          | Some e => [LogStartWarning e]
                          | None => []
                          end /\
  q.1 = r.1 /\
  calls q.2 = calls r.2 ++ kill_calls st.1.2 /\
  exists hs,
    processes st.1.2 = processes bm ++ hs /\
    kill_calls st.1.2 = kill_calls bm ++ (CallKill <$> omap Proc hs).
Proof.
  intros Hbm s1 st r q.
  assert (r.1 = main.mkApp (Some c) (main.chatAPI a) (Some st.1.2) /\
          world r.2 = world st.2 /\ calls r.2 = calls st.2 /\
          logs r.2 = logs st.2 ++ match st.1.1 with
                                  | Some e => [LogStartWarning e]
                                  | None => []
                                  end) as (Hr & Hw & Hc & Hl).
  { subst r. unfold main.startup, bind, call_write. rewrite Hbm.
    cbv beta iota zeta. fold s1. fold st.
    destruct st as [[[e|] bm'] s2]; simpl; [done|].
    by rewrite app_nil_r. }
  assert (q.1 = r.1 /\ calls q.2 = calls r.2 ++ kill_calls st.1.2) as (Hq & Hk).
  { subst q. destruct r as [a' s'] eqn:Er. simpl in *. subst a'.
    unfold main.shutdown, bind, ret. simpl.
    pose proof (Cleanup_manager st.1.2 s') as Hm.
    pose proof (Cleanup_calls st.1.2 s') as Hcs.
    destruct (Cleanup st.1.2 s') as [bm2 s3]. simpl in *. by subst bm2. }
  split_and!; try done.
  destruct (StartAll_handles c bm s1) as (hs & Hp & _).
  fold st in Hp. exists hs. split; [done|].
  unfold kill_calls. by rewrite Hp, omap_app, fmap_app.
Qed.

End AppDetail.

(** ** Package [config]: the search for the project root *)

Section ProjectRoot.
Context {W : Type} `{Env W}.
Variable Dir : string -> string.

(** The loop only reads: it leaves the world and the log alone and
    makes at most one existence check per turn. *)
Lemma findProjectRoot_loop_reads turns : forall dir (s : State W),
  let r := config.findProjectRoot_loop Dir turns dir s in
  world r.2 = world s /\ logs r.2 = logs s /\
  exists cs, calls r.2 = calls s ++ cs /\ (length cs <= turns)%nat.
Proof.
  induction turns as [|turns IH]; intros dir s; simpl.
  - split_and!; try done. exists []. by rewrite app_nil_r.
  - unfold bind, call_read, ret.
    destruct (os_Stat _ (world s)) as [e|]; simpl.
    + destruct (String.eqb (Dir dir) dir); simpl.
      * split_and!; try done. eexists [_]. split; [done|]. simpl. lia.
      * match goal with
        | |- context [config.findProjectRoot_loop Dir turns (Dir dir) ?st] =>
            destruct (IH (Dir dir) st) as (Hw & Hl & cs & Hc & Hn)
        end.
        split_and!; try done. eexists (_ :: cs). rewrite Hc. simpl.
        rewrite <- app_assoc. split; [done|]. simpl. lia.
    + split_and!; try done. eexists [_]. split; [done|]. simpl. lia.
Qed.

(** X14. [findProjectRoot] returns the start directory when go.mod is
    found there; otherwise its parent, when the parent is another
    directory and go.mod is found there; otherwise the empty string and
    the error "go.mod not found".  It does not look further up: a go.mod
    above the parent is not found. *)
Theorem findProjectRoot_result startDir (s : State W) :
  let r := config.findProjectRoot Dir startDir s in
  let found dir := os_Stat (filepath_Join [dir; "go.mod"]) (world s) in
  match r.1.2 with
  | None =>
      found r.1.1 = None /\
      (r.1.1 = startDir \/
       (r.1.1 = Dir startDir /\ Dir startDir <> startDir /\
        is_Some (found startDir)))
  | Some e =>
      r.1.1 = "" /\ is_Some (found startDir) /\
      (Dir startDir = startDir \/ is_Some (found (Dir startDir)))
  end.
Proof.
  unfold config.findProjectRoot. simpl.
  unfold bind, call_read, ret. simpl.
  destruct (os_Stat (filepath_Join [startDir; "go.mod"]) (world s))
    as [e|] eqn:Ehere; simpl.
  - destruct (String.eqb (Dir startDir) startDir) eqn:Eroot; simpl.
    + apply String.eqb_eq in Eroot. by eauto.
    + apply String.eqb_neq in Eroot.
      destruct (os_Stat (filepath_Join [Dir startDir; "go.mod"]) (world s))
        as [e'|] eqn:Ethere; simpl.
      * destruct (String.eqb (Dir (Dir startDir)) (Dir startDir)); simpl;
          by eauto.
      * split; [done|]. right. by eauto.
  - split; [done|]. by left.
Qed.

(** X15. [findProjectRoot] only looks: it leaves the world and the log
    as they are, and the calls it makes are the existence check of
    go.mod in the start directory, followed at most by the one in its
    parent. *)
Theorem findProjectRoot_only_looks startDir (s : State W) :
  let r := config.findProjectRoot Dir startDir s in
  let check dir := CallStat (filepath_Join [dir; "go.mod"]) in
  world r.2 = world s /\ logs r.2 = logs s /\
  (calls r.2 = calls s ++ [check startDir] \/
   calls r.2 = calls s ++ [check startDir; check (Dir startDir)]).
Proof.
  intros r check.
  destruct (findProjectRoot_loop_reads 2 startDir s) as (Hw & Hl & _).
  fold (config.findProjectRoot Dir startDir s) in Hw, Hl. fold r in Hw, Hl.
  split_and!; try done. subst r check.
  unfold config.findProjectRoot. simpl.
  unfold bind, call_read, ret. simpl.
  destruct (os_Stat (filepath_Join [startDir; "go.mod"]) (world s)); simpl;
    [|by left].
  destruct (String.eqb (Dir startDir) startDir); simpl; [by left|].
  right.
  destruct (os_Stat (filepath_Join [Dir startDir; "go.mod"]) (world s)); simpl.
  - destruct (String.eqb (Dir (Dir startDir)) (Dir startDir)); simpl;
      by rewrite <- app_assoc.
  - by rewrite <- app_assoc.
Qed.

End ProjectRoot.

(** ** The further properties on the sample inputs *)

Section MoreSamples.
Import sim scenario samples.

(** The search stops at the parent: from build/bin the go.mod two
    levels up is not found, from build it is. *)
Example search_depth :
  (config.findProjectRoot Dir "/src/wachat/build/bin" (boot project_os)).1
  = ("", Some config.ErrGoModNotFound) /\
  (config.findProjectRoot Dir "/src/wachat/build" (boot project_os)).1
  = ("/src/wachat", None).
Proof. vm_compute. done. Qed.

(** X9 on the sample: a local manager with an empty order. *)
Lemma StartAll_empty_order_witness :
  execOrder (local_bm []) = [] /\
  StartAll 0 (local_bm []) local_state
  = ((Some ErrStartedNone, local_bm []), local_state).
Proof.
  split; [reflexivity|].
  apply (StartAll_empty_order 0%nat (local_bm []) local_state). reflexivity.
Defined.

(** X13 on the sample: "a" and "c" start, "b" is missing; the shutdown
    signals the two processes. *)
Lemma startup_then_shutdown_witness :
  main.binaryManager local_app = Some (local_bm ["a"; "b"; "c"]) /\
  let r := main.startup local_app 7%nat local_state in
  let q := main.shutdown r.1 7%nat r.2 in
  drop (length (calls r.2)) (calls q.2)
  = [CallKill (mkProcess 100); CallKill (mkProcess 101)].
Proof.
  split; [reflexivity|].
  destruct (startup_then_shutdown local_app (local_bm ["a"; "b"; "c"])
              7%nat 7%nat local_state eq_refl)
    as (_ & _ & _ & _ & _ & Hk & _).
  cbv zeta. rewrite Hk, drop_app_length. vm_compute. reflexivity.
Defined.

End MoreSamples.
